(** * VIAME CSV <-> track JSON converter

    A shallow embedding of [server/viame_server/serializers/viame.py]:
    the row decoder ([row_info], [_deduceType], [_parse_row],
    [_parse_row_for_tracks]), the aggregation loop of [load_csv_as_tracks]
    and the row encoder [write_track_to_csv].

    Python exceptions are results of the error type [pyerr]; Python's
    insertion-ordered [dict] is an association list with unique keys; the
    builtins [float()], [int()] and [str()] on floats are an interface
    ([PyBuiltins]) with a reference instance on exact decimals. *)

From Stdlib Require Import ZArith NArith List String Ascii Bool Lia.
From Stdlib Require Import Numbers.DecimalString.
Import ListNotations.

Open Scope string_scope.
Open Scope list_scope.
Open Scope Z_scope.

(** ** Exceptions *)

Inductive pyerr : Set :=
| IndexError
| ValueError
| KeyError.

Inductive result (A : Type) : Type :=
| Ok (a : A)
| Err (e : pyerr).

Arguments Ok {A} a.
Arguments Err {A} e.

Definition bind {A B : Type} (r : result A) (k : A -> result B) : result B :=
  match r with
  | Ok a => k a
  | Err e => Err e
  end.

Notation "x <- e ;; k" := (bind e (fun x => k))
  (at level 61, e at next level, right associativity).
Notation "' p <- e ;; k" := (bind e (fun x => match x with p => k end))
  (at level 61, p pattern, e at next level, right associativity).

Definition of_option {A : Type} (e : pyerr) (o : option A) : result A :=
  match o with
  | Some a => Ok a
  | None => Err e
  end.

(** [[f(x) for x in l]], evaluated left to right; the first exception wins. *)
Fixpoint mapM {A B : Type} (f : A -> result B) (l : list A) : result (list B) :=
  match l with
  | [] => Ok []
  | a :: l' => b <- f a ;; bs <- mapM f l' ;; Ok (b :: bs)
  end.

(** ** Sequences *)

(** [l[i]] with Python's negative indices. *)
Definition getitem {A : Type} (l : list A) (i : Z) : result A :=
  let n := Z.of_nat (List.length l) in
  let j := if i <? 0 then i + n else i in
  if (j <? 0) || (n <=? j) then Err IndexError
  else of_option IndexError (nth_error l (Z.to_nat j)).

(** [range(start, stop, step)] for a positive step. *)
Definition py_range (start stop step : Z) : list Z :=
  map (fun k => start + Z.of_nat k * step)
      (seq 0 (Z.to_nat ((stop - start + step - 1) / step))).

(** [l[a:b]] for non-negative [a <= b]: slicing never raises. *)
Definition slice {A : Type} (l : list A) (a b : nat) : list A :=
  firstn (b - a) (skipn a l).

(** ** Strings *)

(** [s.startswith(p)] *)
Definition startswith (p s : string) : bool := String.prefix p s.

(** [p in s] *)
Fixpoint contains (p s : string) : bool :=
  String.prefix p s ||
  match s with
  | EmptyString => false
  | String _ s' => contains p s'
  end.

(** ** The fragment of [re] the decoder uses

    Every pattern of the source is a sequence of literal characters and
    capturing groups [(c+)] over a character class.  [re_match] is
    [re.match]: anchored at the start only, greedy, backtracking; the result
    lists the captured groups in order. *)

Inductive re_item : Type :=
| Lit (c : ascii)
| Group1 (cls : ascii -> bool).

Fixpoint lits (s : string) : list re_item :=
  match s with
  | EmptyString => []
  | String c s' => Lit c :: lits s'
  end.

(** [[0-9]] *)
Definition re_digit (c : ascii) : bool :=
  let n := nat_of_ascii c in (48 <=? n)%nat && (n <=? 57)%nat.

(** [.] : anything but a newline *)
Definition re_dot (c : ascii) : bool := negb (Ascii.eqb c "010"%char).

Fixpoint rev_string (acc : list ascii) (s : string) : string :=
  match acc with
  | [] => s
  | c :: acc' => rev_string acc' (String c s)
  end.

Fixpoint re_match (p : list re_item) : string -> option (list string) :=
  match p with
  | [] => fun _ => Some []
  | Lit c :: p' =>
      fun s =>
        match s with
        | String x s' => if Ascii.eqb x c then re_match p' s' else None
        | EmptyString => None
        end
  | Group1 cls :: p' =>
      (fix take (acc : list ascii) (s : string) : option (list string) :=
         match s with
         | String x s' =>
             if cls x then
               match take (x :: acc) s' with
               | Some gs => Some gs
               | None =>
                   option_map (cons (rev_string (x :: acc) "")) (re_match p' s')
               end
             else None
         | EmptyString => None
         end) []
  end.

(** [\(kp\) head ([0-9]+) ([0-9]+)] *)
Definition re_kp_head : list re_item :=
  lits "(kp) head " ++ [Group1 re_digit; Lit " "%char; Group1 re_digit].

(** [\(kp\) tail ([0-9]+) ([0-9]+)] *)
Definition re_kp_tail : list re_item :=
  lits "(kp) tail " ++ [Group1 re_digit; Lit " "%char; Group1 re_digit].

(** [\(atr\) (.+) (.+)] *)
Definition re_atr : list re_item :=
  lits "(atr) " ++ [Group1 re_dot; Lit " "%char; Group1 re_dot].

(** [\(trk-atr\) (.+) (.+)] *)
Definition re_trk_atr : list re_item :=
  lits "(trk-atr) " ++ [Group1 re_dot; Lit " "%char; Group1 re_dot].

(** ** Dictionaries

    A Python [dict] keeps its keys in insertion order, and assigning to a
    key that is present keeps the key's position. *)

Class PyKey (K : Type) : Type := key_eqb : K -> K -> bool.

#[export] Instance PyKey_string : PyKey string := String.eqb.
#[export] Instance PyKey_Z : PyKey Z := Z.eqb.

Definition pydict (K V : Type) : Type := list (K * V).

Fixpoint dict_get {K V : Type} `{PyKey K} (k : K) (d : pydict K V) : option V :=
  match d with
  | [] => None
  | (k', v) :: d' => if key_eqb k k' then Some v else dict_get k d'
  end.

(** [k in d] *)
Definition dict_mem {K V : Type} `{PyKey K} (k : K) (d : pydict K V) : bool :=
  match dict_get k d with
  | Some _ => true
  | None => false
  end.

(** [d[k] = v] *)
Fixpoint dict_set {K V : Type} `{PyKey K} (k : K) (v : V) (d : pydict K V)
  : pydict K V :=
  match d with
  | [] => [(k, v)]
  | (k', v') :: d' =>
      if key_eqb k k' then (k', v) :: d' else (k', v') :: dict_set k v d'
  end.

(** [d[k]], raising [KeyError] *)
Definition dict_getitem {K V : Type} `{PyKey K} (d : pydict K V) (k : K)
  : result V :=
  of_option KeyError (dict_get k d).

(** truth value of a dict *)
Definition dict_truthy {K V : Type} (d : pydict K V) : bool :=
  match d with
  | [] => false
  | _ :: _ => true
  end.

(** [str(z)] of an integer *)
Definition int_str (z : Z) : string := NilZero.string_of_int (Z.to_int z).

(** [s.split(sep)] for a one-character separator *)
Fixpoint split_acc (sep : ascii) (s : string) (acc : list ascii) : list string :=
  match s with
  | EmptyString => [rev_string acc ""]
  | String c s' =>
      if Ascii.eqb c sep then rev_string acc "" :: split_acc sep s' []
      else split_acc sep s' (c :: acc)
  end.

Definition split (sep : ascii) (s : string) : list string := split_acc sep s [].

(** [csv.reader] on a line without quote characters: the fields are the
    pieces between commas. *)
Definition csv_fields (line : string) : list string := split ","%char line.

(** The rows [load_csv_as_tracks] reads from the decoded text: the lines
    that are not empty and do not start with ["#"], each split into
    fields. *)
Definition csv_reader (text : string) : list (list string) :=
  map csv_fields
      (filter (fun row => negb (startswith "#" row) && negb (String.eqb row ""))
              (split "010"%char text)).

(** ** The builtins on numbers

    [float(s)], [int(s)], comparison of a float with zero, the truth value
    of a float and [str(x)] of a float are Python's own; the properties of
    the converter only rely on the two laws of [PyBuiltinsLaws], which hold
    of IEEE doubles. *)

Class PyBuiltins : Type := {
  float : Type;
  (** [float(s)]; [None] is [ValueError] *)
  py_float : string -> option float;
  (** [int(s)]; [None] is [ValueError] *)
  py_int : string -> option Z;
  (** [x > 0] *)
  float_gt0 : float -> bool;
  (** [x <= 0] *)
  float_le0 : float -> bool;
  (** [bool(x)] *)
  float_truthy : float -> bool;
  (** [str(x)] *)
  float_str : float -> string
}.

(** A positive float is not zero, and a float that is at most zero is not
    positive. *)
Class PyBuiltinsLaws (B : PyBuiltins) : Prop := {
  gt0_truthy : forall x, float_gt0 x = true -> float_truthy x = true;
  le0_not_gt0 : forall x, float_le0 x = true -> float_gt0 x = false
}.

(** ** A reference instance: exact decimals

    [DFin neg m e] is [(-1)^neg * m * 10^e] with [m] not divisible by 10
    (zero is [DFin neg 0 0]).  The instance follows CPython on ASCII
    literals; rounding to binary64 and overflow are not modelled, so it
    agrees with CPython on literals of at most 15 significant digits
    inside the range of a double. *)

Module Ref.

Inductive dfloat : Set :=
| DFin (neg : bool) (m : N) (e : Z)
| DInf (neg : bool)
| DNan.

Fixpoint strip_zeros (fuel : nat) (m : N) (e : Z) : N * Z :=
  match fuel with
  | O => (m, e)
  | S fuel' =>
      if (m =? 0)%N then (0%N, 0)
      else if (m mod 10 =? 0)%N then strip_zeros fuel' (m / 10)%N (e + 1)
      else (m, e)
  end.

Definition mk_fin (neg : bool) (m : N) (e : Z) : dfloat :=
  let '(m', e') := strip_zeros (S (N.size_nat m)) m e in DFin neg m' e'.

Definition is_space (c : ascii) : bool :=
  let n := nat_of_ascii c in
  ((9 <=? n)%nat && (n <=? 13)%nat) || ((28 <=? n)%nat && (n <=? 32)%nat).

Fixpoint lstrip (s : string) : string :=
  match s with
  | String c s' => if is_space c then lstrip s' else s
  | EmptyString => s
  end.

Fixpoint rstrip (s : string) : string :=
  match s with
  | String c s' =>
      match rstrip s' with
      | EmptyString => if is_space c then EmptyString else String c EmptyString
      | r => String c r
      end
  | EmptyString => EmptyString
  end.

Definition strip (s : string) : string := rstrip (lstrip s).

Definition digit_val (c : ascii) : N := N.of_nat (nat_of_ascii c - 48).

(** [digit (["_"] digit)*], accumulating the value and the digit count *)
Fixpoint read_digits (s : string) (acc : N) (n : nat) : N * nat * string :=
  match s with
  | String c s' =>
      if re_digit c then read_digits s' (10 * acc + digit_val c)%N (S n)
      else if Ascii.eqb c "_"%char && negb (Nat.eqb n 0) then
        match s' with
        | String d s'' =>
            if re_digit d
            then read_digits s'' (10 * acc + digit_val d)%N (S n)
            else (acc, n, s)
        | EmptyString => (acc, n, s)
        end
      else (acc, n, s)
  | EmptyString => (acc, n, s)
  end.

Definition read_sign (s : string) : bool * string :=
  match s with
  | String "-"%char s' => (true, s')
  | String "+"%char s' => (false, s')
  | _ => (false, s)
  end.

Definition lower (c : ascii) : ascii :=
  let n := nat_of_ascii c in
  if (65 <=? n)%nat && (n <=? 90)%nat then ascii_of_nat (n + 32) else c.

Fixpoint lower_string (s : string) : string :=
  match s with
  | String c s' => String (lower c) (lower_string s')
  | EmptyString => EmptyString
  end.

(** [number [exponent]]: mantissa and decimal exponent *)
Definition read_number (s : string) : option (N * Z) :=
  let '(ip, ni, s1) := read_digits s 0%N 0%nat in
  let '(m, nf, s2) :=
    match s1 with
    | String "."%char s1' => read_digits s1' ip 0%nat
    | _ => (ip, 0%nat, s1)
    end in
  if Nat.eqb (ni + nf) 0 then None
  else
    match s2 with
    | EmptyString => Some (m, - Z.of_nat nf)
    | String c s3 =>
        if Ascii.eqb (lower c) "e"%char then
          let '(eneg, s4) := read_sign s3 in
          let '(ev, ne, s5) := read_digits s4 0%N 0%nat in
          if Nat.eqb ne 0 then None
          else
            match s5 with
            | EmptyString =>
                Some (m, (if eneg then - Z.of_N ev else Z.of_N ev) - Z.of_nat nf)
            | _ => None
            end
        else None
    end.

Definition float_of_string (s : string) : option dfloat :=
  let '(neg, body) := read_sign (strip s) in
  let low := lower_string body in
  if String.eqb low "inf" || String.eqb low "infinity" then Some (DInf neg)
  else if String.eqb low "nan" then Some DNan
  else option_map (fun '(m, e) => mk_fin neg m e) (read_number body).

Definition int_of_string (s : string) : option Z :=
  let '(neg, body) := read_sign (strip s) in
  let '(v, n, rest) := read_digits body 0%N 0%nat in
  if Nat.eqb n 0 then None
  else
    match rest with
    | EmptyString => Some (if neg then - Z.of_N v else Z.of_N v)
    | _ => None
    end.

Definition gt0 (x : dfloat) : bool :=
  match x with
  | DFin neg m _ => negb neg && negb (m =? 0)%N
  | DInf neg => negb neg
  | DNan => false
  end.

Definition le0 (x : dfloat) : bool :=
  match x with
  | DFin neg m _ => neg || (m =? 0)%N
  | DInf neg => neg
  | DNan => false
  end.

Definition truthy (x : dfloat) : bool :=
  match x with
  | DFin _ m _ => negb (m =? 0)%N
  | _ => true
  end.

Definition string_of_N (n : N) : string := NilZero.string_of_uint (N.to_uint n).

Fixpoint zeros (n : nat) : string :=
  match n with
  | O => ""
  | S n' => String "0"%char (zeros n')
  end.

(** [repr] of a finite non-zero value with digit string [ds] and decimal
    point position [decpt] (the value is [0.ds * 10^decpt]) *)
Definition repr_digits (ds : string) (decpt : Z) : string :=
  let n := Z.of_nat (String.length ds) in
  if (decpt <=? -4) || (16 <? decpt) then
    let ex := decpt - 1 in
    let mant :=
      match ds with
      | String d EmptyString => String d EmptyString
      | String d rest => String d ("." ++ rest)%string
      | EmptyString => ""
      end in
    let ea := string_of_N (Z.to_N (Z.abs ex)) in
    let sgn := if ex <? 0 then "-" else "+" in
    let pad := if Z.abs ex <? 10 then "0" else "" in
    (mant ++ "e" ++ sgn ++ pad ++ ea)%string
  else if decpt <=? 0 then
    let zs := zeros (Z.to_nat (- decpt)) in ("0." ++ zs ++ ds)%string
  else if decpt <? n then
    let ip := substring 0 (Z.to_nat decpt) ds in
    let fp := substring (Z.to_nat decpt) (Z.to_nat (n - decpt)) ds in
    (ip ++ "." ++ fp)%string
  else
    let zs := zeros (Z.to_nat (decpt - n)) in (ds ++ zs ++ ".0")%string.

Definition to_string (x : dfloat) : string :=
  match x with
  | DNan => "nan"
  | DInf neg => if neg then "-inf" else "inf"
  | DFin neg m e =>
      let sgn := if neg then "-" else "" in
      let body :=
        if (m =? 0)%N then "0.0"
        else
          let ds := string_of_N m in
          repr_digits ds (Z.of_nat (String.length ds) + e) in
      (sgn ++ body)%string
  end.

#[global] Instance builtins : PyBuiltins := {|
  float := dfloat;
  py_float := float_of_string;
  py_int := int_of_string;
  float_gt0 := gt0;
  float_le0 := le0;
  float_truthy := truthy;
  float_str := to_string
|}.

End Ref.

(** ** Data model and converter *)

Section Converter.

Context {B : PyBuiltins}.

(** The Python values that occur as attribute values, keypoint coordinates
    and CSV cells. *)
Inductive pyval : Type :=
| VBool (b : bool)
| VInt (z : Z)
| VFloat (x : float)
| VStr (s : string).

(** [class Feature].  [head] and [tail] are declared
    [Optional[Tuple[float, float]]]; the fields hold whatever the caller
    stores, hence pairs of [pyval]. *)
Record Feature : Type := mkFeature {
  frame : Z;
  bounds : list float;
  head : option (pyval * pyval);
  tail : option (pyval * pyval);
  fishLength : option float;
  attributes : option (pydict string pyval)
}.

(** [class Track]; [end] and the track's [attributes] are renamed. *)
Record Track : Type := mkTrack {
  begin : Z;
  end_ : Z;
  trackId : Z;
  features : list Feature;
  confidencePairs : list (string * float);
  trk_attributes : pydict string pyval
}.

Definition float_ (s : string) : result float := of_option ValueError (py_float s).
Definition int_ (s : string) : result Z := of_option ValueError (py_int s).

Definition row_info (row : list string) : result (Z * Z * list float * float) :=
  r0 <- getitem row 0 ;;
  trackId <- int_ r0 ;;
  r2 <- getitem row 2 ;;
  frame <- int_ r2 ;;
  bounds <- mapM float_ (slice row 3 7) ;;
  r8 <- getitem row 8 ;;
  fish_length <- float_ r8 ;;
  Ok (trackId, frame, bounds, fish_length).

Definition _deduceType (value : string) : pyval :=
  if String.eqb value "true" then VBool true
  else if String.eqb value "false" then VBool false
  else
    match py_float value with
    | Some number => VFloat number
    | None => VStr value
    end.

(** The comprehension that builds [confidence_pairs], over the indices
    [idxs]: the filter reads [row[i]], the element reads [row[i]], then
    [row[i + 1]], then calls [float]. *)
Fixpoint confidence_scan (row : list string) (idxs : list Z)
  : result (list (string * float)) :=
  match idxs with
  | [] => Ok []
  | i :: idxs' =>
      ri <- getitem row i ;;
      if startswith "(" ri then confidence_scan row idxs'
      else
        label <- getitem row i ;;
        score_text <- getitem row (i + 1) ;;
        score <- float_ score_text ;;
        rest <- confidence_scan row idxs' ;;
        Ok ((label, score) :: rest)
  end.

(** A label position of the confidence scan whose score [float] rejects. *)
Definition bad_score (row : list string) (i : Z) : Prop :=
  exists label text,
    getitem row i = Ok label /\ startswith "(" label = false /\
    getitem row (i + 1) = Ok text /\ py_float text = None.

(** The three dicts the tag scan fills; [features] only ever receives the
    keys ["head"] and ["tail"]. *)
Record tags : Type := mkTags {
  tag_head : option (pyval * pyval);
  tag_tail : option (pyval * pyval);
  tag_attributes : pydict string pyval;
  tag_track_attributes : pydict string pyval
}.

Definition no_tags : tags := mkTags None None [] [].

(** The body of the [for j] loop on the field [rj = row[j]]. *)
Definition scan_field (t : tags) (rj : string) : tags :=
  let t1 :=
    if startswith "(kp)" rj then
      if contains "head" rj then
        match re_match re_kp_head rj with
        | Some [g1; g2] =>
            mkTags (Some (VStr g1, VStr g2)) (tag_tail t)
                   (tag_attributes t) (tag_track_attributes t)
        | _ => t
        end
      else if contains "tail" rj then
        match re_match re_kp_tail rj with
        | Some [g1; g2] =>
            mkTags (tag_head t) (Some (VStr g1, VStr g2))
                   (tag_attributes t) (tag_track_attributes t)
        | _ => t
        end
      else t
    else t in
  let t2 :=
    if startswith "(atr)" rj then
      match re_match re_atr rj with
      | Some [g1; g2] =>
          mkTags (tag_head t1) (tag_tail t1)
                 (dict_set g1 (_deduceType g2) (tag_attributes t1))
                 (tag_track_attributes t1)
      | _ => t1
      end
    else t1 in
  if startswith "(trk-atr)" rj then
    match re_match re_trk_atr rj with
    | Some [g1; g2] =>
        mkTags (tag_head t2) (tag_tail t2) (tag_attributes t2)
               (dict_set g1 (_deduceType g2) (tag_track_attributes t2))
    | _ => t2
    end
  else t2.

Fixpoint tag_scan (row : list string) (js : list Z) (t : tags) : result tags :=
  match js with
  | [] => Ok t
  | j :: js' => rj <- getitem row j ;; tag_scan row js' (scan_field t rj)
  end.

Definition _parse_row (row : list string)
  : result (tags * list (string * float)) :=
  let len := Z.of_nat (List.length row) in
  confidence_pairs <- confidence_scan row (py_range 9 len 2) ;;
  let start := if len mod 2 =? 0 then len - 1 else len - 2 in
  t <- tag_scan row (py_range start len 1) no_tags ;;
  Ok (t, confidence_pairs).

(** [d or None] *)
Definition dict_or_None {K V : Type} (d : pydict K V) : option (pydict K V) :=
  if dict_truthy d then Some d else None.

Definition _parse_row_for_tracks (row : list string)
  : result (Feature * pydict string pyval * pydict string pyval
            * list (string * float)) :=
  '(t, confidence_pairs) <- _parse_row row ;;
  '(trackId, frame, bounds, fishLength) <- row_info row ;;
  let feature :=
    mkFeature frame bounds (tag_head t) (tag_tail t)
              (if float_gt0 fishLength then Some fishLength else None)
              (dict_or_None (tag_attributes t)) in
  Ok (feature, tag_attributes t, tag_track_attributes t, confidence_pairs).

(** [(key, val) = s] for a string [s]: the characters of [s] are unpacked,
    and there must be exactly two of them. *)
Definition unpack2 (s : string) : result (string * string) :=
  match s with
  | String a (String b EmptyString) =>
      Ok (String a EmptyString, String b EmptyString)
  | _ => Err ValueError
  end.

(** [for (key, val) in track_attributes: attrs[key] = val].  Iterating a
    dict yields its keys. *)
Fixpoint merge_track_attributes (keys : list string)
    (attrs : pydict string pyval) : result (pydict string pyval) :=
  match keys with
  | [] => Ok attrs
  | k :: keys' =>
      '(key, val) <- unpack2 k ;;
      merge_track_attributes keys' (dict_set key (VStr val) attrs)
  end.

(** One iteration of the [for row in reader] loop.  The track object is
    mutated in place: the updated record is stored back under its key. *)
Definition aggregate_row (tracks : pydict Z Track) (row : list string)
  : result (pydict Z Track) :=
  '(feature, attributes, track_attributes, confidence_pairs)
     <- _parse_row_for_tracks row ;;
  '(tid, frm, _, _) <- row_info row ;;
  let tracks :=
    if negb (dict_mem tid tracks)
    then dict_set tid (mkTrack frm frm tid [] [] []) tracks
    else tracks in
  track <- dict_getitem tracks tid ;;
  let begin' := Z.min frm (begin track) in
  let end' := Z.max (end_ track) frm in
  let features' := features track ++ [feature] in
  attrs' <- merge_track_attributes (map fst track_attributes)
                                   (trk_attributes track) ;;
  Ok (dict_set tid
        (mkTrack begin' end' (trackId track) features' confidence_pairs attrs')
        tracks).

Fixpoint aggregate (tracks : pydict Z Track) (reader : list (list string))
  : result (pydict Z Track) :=
  match reader with
  | [] => Ok tracks
  | row :: reader' =>
      tracks' <- aggregate_row tracks row ;; aggregate tracks' reader'
  end.

(** [load_csv_as_tracks] on the rows the CSV reader yields.  The final
    [asdict] only changes the representation: a field that is [None] here
    is a key that is absent there. *)
Definition load_csv_as_tracks (reader : list (list string))
  : result (pydict Z Track) :=
  aggregate [] reader.

(** [str(v)], as f-strings and [csv.writer] apply it *)
Definition py_str (v : pyval) : string :=
  match v with
  | VBool true => "True"
  | VBool false => "False"
  | VInt z => int_str z
  | VFloat x => float_str x
  | VStr s => s
  end.

Definition valueToString (value : pyval) : string :=
  match value with
  | VBool true => "true"
  | VBool false => "false"
  | _ => py_str value
  end.

(** [feature.fishLength or -1] *)
Definition fishLength_or (feature : Feature) : pyval :=
  match fishLength feature with
  | Some x => if float_truthy x then VFloat x else VInt (-1)
  | None => VInt (-1)
  end.

Definition kp_columns (feature : Feature) : list pyval :=
  match head feature, tail feature with
  | Some h, Some t =>
      [VStr ("(kp) head " ++ py_str (fst h) ++ " " ++ py_str (snd h))%string;
       VStr ("(kp) tail " ++ py_str (fst t) ++ " " ++ py_str (snd t))%string]
  | _, _ => []
  end.

Definition atr_columns (prefix : string) (d : pydict string pyval) : list pyval :=
  if dict_truthy d then
    map (fun kv => VStr (prefix ++ fst kv ++ " " ++ valueToString (snd kv))%string) d
  else [].

(** The list [columns] built for one feature, up to [writerow]. *)
Definition feature_columns (track : Track) (feature : Feature)
  : result (list pyval) :=
  last_pair <- getitem (confidencePairs track) (-1) ;;
  let columns :=
    [VInt (trackId track); VStr ""; VInt (frame feature)]
      ++ map VFloat (bounds feature)
      ++ [VFloat (snd last_pair); fishLength_or feature] in
  let columns :=
    columns ++ flat_map (fun pair => [VStr (fst pair); VFloat (snd pair)])
                        (confidencePairs track) in
  let columns := columns ++ kp_columns feature in
  let columns :=
    match attributes feature with
    | Some d => columns ++ atr_columns "(atr) " d
    | None => columns
    end in
  let columns := columns ++ atr_columns "(trk-atr) " (trk_attributes track) in
  Ok columns.

(** The [for feature in track.features] loop; [written] is what the CSV
    writer has received so far, and stays written when a later feature
    raises. *)
Fixpoint write_features (track : Track) (fs : list Feature)
    (written : list (list pyval)) : list (list pyval) * result unit :=
  match fs with
  | [] => (written, Ok tt)
  | feature :: fs' =>
      match feature_columns track feature with
      | Ok columns => write_features track fs' (written ++ [columns])
      | Err e => (written, Err e)
      end
  end.

Definition write_track_to_csv (track : Track) (csv_writer : list (list pyval))
  : list (list pyval) * result unit :=
  write_features track (features track) csv_writer.

End Converter.

(** ** Frame ranges *)

Definition list_min (l : list Z) : option Z :=
  match l with
  | [] => None
  | x :: l' => Some (fold_left Z.min l' x)
  end.

Definition list_max (l : list Z) : option Z :=
  match l with
  | [] => None
  | x :: l' => Some (fold_left Z.max l' x)
  end.

Definition frames {B : PyBuiltins} (t : Track) : list Z := map frame (features t).

(** [begin] and [end] are the least and the greatest frame of the track's
    features. *)
Definition range_ok {B : PyBuiltins} (t : Track) : Prop :=
  begin t <= end_ t /\
  list_min (frames t) = Some (begin t) /\
  list_max (frames t) = Some (end_ t).

(** ** Sample inputs, on the reference builtins *)

Module Sample.

Definition nl : string := String "010"%char EmptyString.

(** The two-line file of the end-to-end scenario. *)
Definition two_rows : string :=
  ("1,,0,10.0,20.0,30.0,40.0,0.9,5.2,fish,0.9" ++ nl ++
   "1,,1,11.0,21.0,31.0,41.0,0.9,-1,fish,0.9")%string.

(** A row that carries a track attribute. *)
Definition trk_atr_row : list string :=
  csv_fields "1,,0,10.0,20.0,30.0,40.0,0.9,5.2,(trk-atr) color red".

(** A row whose track attribute has a two-character name. *)
Definition trk_atr_row2 : list string :=
  csv_fields "1,,0,10.0,20.0,30.0,40.0,0.9,5.2,(trk-atr) ab 1".

(** A row with both keypoints. *)
Definition kp_row : list string :=
  csv_fields
    "1,,0,10.0,20.0,30.0,40.0,0.9,5.2,fish,0.9,(kp) head 12 34,(kp) tail 56 78".

(** A row with one confidence pair and a positive length. *)
Definition fish_row : list string :=
  csv_fields "1,,0,10.0,20.0,30.0,40.0,0.9,5.2,fish,0.9".

(** A row whose fields are not in the encoder's form: a padded track
    identifier, a bound without a fraction, a zero length. *)
Definition loose_row : list string :=
  csv_fields "01,,0,10,20.0,30.0,40.0,0.9,0,fish,0.9".

(** Two rows of one track with different confidence pairs. *)
Definition pairs_row1 : list string :=
  csv_fields "1,,3,10.0,20.0,30.0,40.0,0.9,5.2,fish,0.9".
Definition pairs_row2 : list string :=
  csv_fields "1,,7,11.0,21.0,31.0,41.0,0.95,-1,fish,0.95,shark,0.2".

(** Rows with lengths 12.5 and 0. *)
Definition long_row : list string :=
  csv_fields "1,,0,10.0,20.0,30.0,40.0,0.9,12.5,fish,0.9".
Definition zero_row : list string :=
  csv_fields "1,,0,10.0,20.0,30.0,40.0,0.9,0,fish,0.9".

(** Rows of even length whose last field is not a tag. *)
Definition even_row : list string :=
  csv_fields "1,,0,10.0,20.0,30.0,40.0,0.9,5.2,fish".
Definition even_row_bad_score : list string :=
  csv_fields "1,,0,10.0,20.0,30.0,40.0,0.9,5.2,fish,abc,x".

(** Tracks for the encoder. *)
Definition empty_track : Track := mkTrack 0 0 1 [] [] [].

Definition a_feature : Feature :=
  mkFeature 0 [Ref.DFin false 1 1; Ref.DFin false 2 1;
               Ref.DFin false 3 1; Ref.DFin false 4 1]
            None None None None.

Definition no_pairs_track : Track := mkTrack 0 0 1 [a_feature] [] [].

Definition fish_track : Track :=
  mkTrack 0 0 1 [a_feature] [("fish", Ref.DFin false 9 (-1))] [].

End Sample.

(** ** The rest of the module: [asdict], the export loop *)

Section ConverterMore.

Context {B : PyBuiltins}.

(** The values of the dict that [Feature.asdict] builds. *)
Inductive fvalue : Type :=
| FInt (z : Z)
| FFloat (x : float)
| FFloats (l : list float)
| FPoint (p : pyval * pyval)
| FAttrs (d : pydict string pyval).

(** The values of the dict that [Track.asdict] builds. *)
Inductive tvalue : Type :=
| TInt (z : Z)
| TFeatures (l : list (pydict string fvalue))
| TPairs (l : list (string * float))
| TAttrs (d : pydict string pyval).

(** An entry of [__dict__] that the comprehension of [Feature.asdict]
    keeps: the value is not [None]. *)
Definition entry {A : Type} (k : string) (j : A -> fvalue) (o : option A)
  : pydict string fvalue :=
  match o with
  | Some a => [(k, j a)]
  | None => []
  end.

(** [Feature.asdict]: the fields in declaration order, without the ones
    that are [None]. *)
Definition Feature_asdict (f : Feature) : pydict string fvalue :=
  [("frame", FInt (frame f)); ("bounds", FFloats (bounds f))]
    ++ entry "head" FPoint (head f)
    ++ entry "tail" FPoint (tail f)
    ++ entry "fishLength" FFloat (fishLength f)
    ++ entry "attributes" FAttrs (attributes f).

(** [Track.asdict]: a copy of [__dict__] whose ["features"] entry is the
    list of the features' dicts. *)
Definition Track_asdict (t : Track) : pydict string tvalue :=
  [("begin", TInt (begin t)); ("end", TInt (end_ t));
   ("trackId", TInt (trackId t));
   ("features", TFeatures (map Feature_asdict (features t)));
   ("confidencePairs", TPairs (confidencePairs t));
   ("attributes", TAttrs (trk_attributes t))].

(** The value [load_csv_as_tracks] returns:
    [{trackId: track.asdict() for trackId, track in tracks.items()}]. *)
Definition tracks_asdict (tracks : pydict Z Track)
  : pydict Z (pydict string tvalue) :=
  map (fun kv => (fst kv, Track_asdict (snd kv))) tracks.

(** The loop of [export_tracks_as_csv],
    [for track in tracks.values(): write_track_to_csv(track, writer)],
    on the tracks that [from_dict] has built.  [written] is what the writer
    has received. *)
Fixpoint write_tracks (tracks : list Track) (written : list (list pyval))
  : list (list pyval) * result unit :=
  match tracks with
  | [] => (written, Ok tt)
  | track :: tracks' =>
      match write_track_to_csv track written with
      | (written', Ok _) => write_tracks tracks' written'
      | (written', Err e) => (written', Err e)
      end
  end.

(** The rows [export_tracks_as_csv] returns in [csvFile.getvalue()]; when
    a track raises, the exception leaves the function and no text is
    returned. *)
Definition export_rows {K : Type} (tracks : pydict K Track)
  : result (list (list pyval)) :=
  match write_tracks (map snd tracks) [] with
  | (written, Ok _) => Ok written
  | (_, Err e) => Err e
  end.

(** All characters of a string satisfy [p]. *)
Fixpoint all_chars (p : ascii -> bool) (s : string) : bool :=
  match s with
  | EmptyString => true
  | String c s' => p c && all_chars p s'
  end.

Definition not_space (c : ascii) : bool := negb (Ascii.eqb c " "%char).

(** The rows of [reader] whose track identifier is [tid]. *)
Definition rows_of (tid : Z) (reader : list (list string)) : list (list string) :=
  filter (fun row =>
            match row_info row with
            | Ok (tid', _, _, _) => Z.eqb tid' tid
            | Err _ => false
            end) reader.

(** The feature a row decodes to. *)
Definition feature_of (row : list string) : result Feature :=
  '(feature, _, _, _) <- _parse_row_for_tracks row ;; Ok feature.

End ConverterMore.

(** ** Further sample inputs *)

Module SampleMore.

(** An 11-field row whose score is not a number. *)
Definition odd_bad_row : list string :=
  csv_fields "1,,0,10.0,20.0,30.0,40.0,0.9,5.2,fish,abc".

(** A 13-field row with a tag in field 9 and two tags at the end. *)
Definition early_tag_row : list string :=
  csv_fields
    "1,,0,10.0,20.0,30.0,40.0,0.9,5.2,(atr) early 1,0.9,(atr) a true,(atr) b 2".

(** Rows of two tracks, interleaved. *)
Definition track1_row0 : list string :=
  csv_fields "1,,0,10.0,20.0,30.0,40.0,0.9,5.2,fish,0.9".
Definition track2_row0 : list string :=
  csv_fields "2,,0,12.0,22.0,32.0,42.0,0.8,-1,shark,0.8".
Definition track1_row1 : list string :=
  csv_fields "1,,1,11.0,21.0,31.0,41.0,0.9,-1,fish,0.9".

Definition two_tracks : list (list string) :=
  [track1_row0; track2_row0; track1_row1].


End SampleMore.

(** * Properties *)

Lemma bind_ok {A B : Type} (r : result A) (k : A -> result B) (b : B) :
  bind r k = Ok b -> exists a, r = Ok a /\ k a = Ok b.
Proof.
  destruct r as [a | e]; simpl; intros H; [eauto | discriminate].
Qed.

Ltac inv_bind H :=
  let a := fresh "a" in
  let Ha := fresh "Ha" in
  apply bind_ok in H; destruct H as (a & Ha & H).

(** [list_min] is a lower bound that is attained. *)
Lemma list_min_spec (l : list Z) (m : Z) :
  list_min l = Some m -> In m l /\ forall x, In x l -> m <= x.
Proof.
  destruct l as [| x l]; simpl; [discriminate |].
  intros [= <-]. revert x; induction l as [| y l IH]; intros x; simpl.
  - split; [now left | intros z [<- | []]; lia].
  - destruct (IH (Z.min x y)) as [Hin Hle]. split.
    + destruct Hin as [Hin | Hin]; [| now right; right].
      rewrite <- Hin. destruct (Z.min_spec x y) as [[_ ->] | [_ ->]]; auto.
    + pose proof (Hle _ (or_introl eq_refl)) as H0.
      intros z [Hz | [Hz | Hz]]; [lia | lia | apply Hle; now right].
Qed.

(** [list_max] is an upper bound that is attained. *)
Lemma list_max_spec (l : list Z) (m : Z) :
  list_max l = Some m -> In m l /\ forall x, In x l -> x <= m.
Proof.
  destruct l as [| x l]; simpl; [discriminate |].
  intros [= <-]. revert x; induction l as [| y l IH]; intros x; simpl.
  - split; [now left | intros z [<- | []]; lia].
  - destruct (IH (Z.max x y)) as [Hin Hle]. split.
    + destruct Hin as [Hin | Hin]; [| now right; right].
      rewrite <- Hin. destruct (Z.max_spec x y) as [[_ ->] | [_ ->]]; auto.
    + pose proof (Hle _ (or_introl eq_refl)) as H0.
      intros z [Hz | [Hz | Hz]]; [lia | lia | apply Hle; now right].
Qed.

Lemma list_min_snoc (l : list Z) (m x : Z) :
  list_min l = Some m -> list_min (l ++ [x]) = Some (Z.min x m).
Proof.
  destruct l as [| y l]; simpl; [discriminate |].
  intros [= <-]. rewrite fold_left_app; simpl. f_equal; lia.
Qed.

Lemma list_max_snoc (l : list Z) (m x : Z) :
  list_max l = Some m -> list_max (l ++ [x]) = Some (Z.max m x).
Proof.
  destruct l as [| y l]; simpl; [discriminate |].
  intros [= <-]. now rewrite fold_left_app.
Qed.

(** Dictionaries keyed by track identifiers. *)

Lemma dict_get_set_same {V : Type} (k : Z) (v : V) (d : pydict Z V) :
  dict_get k (dict_set k v d) = Some v.
Proof.
  induction d as [| [k' v'] d IH]; simpl.
  - unfold key_eqb, PyKey_Z. now rewrite Z.eqb_refl.
  - destruct (key_eqb k k') eqn:E; simpl; rewrite E; auto.
Qed.

Lemma dict_set_set {V : Type} (k : Z) (v v' : V) (d : pydict Z V) :
  dict_set k v' (dict_set k v d) = dict_set k v' d.
Proof.
  induction d as [| [k' w] d IH]; simpl.
  - unfold key_eqb, PyKey_Z. now rewrite Z.eqb_refl.
  - destruct (key_eqb k k') eqn:E; simpl; rewrite E; [reflexivity | now rewrite IH].
Qed.

Lemma dict_set_Forall {K V : Type} `{PyKey K} (P : V -> Prop) (k : K) (v : V)
    (d : pydict K V) :
  Forall (fun kv => P (snd kv)) d -> P v ->
  Forall (fun kv => P (snd kv)) (dict_set k v d).
Proof.
  intros Hd Hv. induction d as [| [k' v'] d IH]; simpl.
  - constructor; auto.
  - inversion Hd; subst. destruct (key_eqb k k'); constructor; auto.
Qed.

Lemma dict_get_Forall {K V : Type} `{PyKey K} (P : V -> Prop) (k : K) (v : V)
    (d : pydict K V) :
  Forall (fun kv => P (snd kv)) d -> dict_get k d = Some v -> P v.
Proof.
  intros Hd. induction d as [| [k' v'] d IH]; simpl; [discriminate |].
  inversion Hd; subst. destruct (key_eqb k k'); [intros [= <-]; auto | auto].
Qed.

(** The reference builtins satisfy the laws. *)
#[global] Instance Ref_laws : PyBuiltinsLaws Ref.builtins.
Proof.
  split.
  - intros [neg m e | neg | ]; simpl; trivial.
    now destruct neg; simpl.
  - intros [neg m e | neg | ]; simpl; trivial.
    + destruct neg; simpl; trivial. now intros ->.
    + now intros ->.
Qed.

Section ConverterProperties.

Context {B : PyBuiltins} {L : PyBuiltinsLaws B}.

(** ** Type inference *)

(** C8.  [_deduceType] is a total function from tokens to values (it has
    no error result), with the precedence: the token ["true"] gives the
    boolean true; the token ["false"] gives the boolean false; any other
    token that [float] accepts gives that number; every remaining token
    gives itself as a string. *)
Theorem deduceType_precedence (value : string) :
  (value = "true" -> _deduceType value = VBool true) /\
  (value = "false" -> _deduceType value = VBool false) /\
  (value <> "true" -> value <> "false" ->
   forall x, py_float value = Some x -> _deduceType value = VFloat x) /\
  (value <> "true" -> value <> "false" ->
   py_float value = None -> _deduceType value = VStr value).
Proof.
  unfold _deduceType. repeat split.
  - now intros ->.
  - now intros ->.
  - intros Ht Hf x Hx.
    apply String.eqb_neq in Ht, Hf. now rewrite Ht, Hf, Hx.
  - intros Ht Hf Hx.
    apply String.eqb_neq in Ht, Hf. now rewrite Ht, Hf, Hx.
Qed.

(** ** Row decoding *)

(** [row_info] reads the length from field 8. *)
Lemma row_info_field8 (row : list string) tid frm bs len_ :
  row_info row = Ok (tid, frm, bs, len_) ->
  exists t8, getitem row 8 = Ok t8 /\ py_float t8 = Some len_.
Proof.
  unfold row_info. intros H.
  do 7 inv_bind H. injection H as <- <- <- <-.
  exists a4. split; [assumption |].
  unfold float_, of_option in Ha5. destruct (py_float a4); congruence.
Qed.

(** The feature a decoded row yields, from the parts of the row. *)
Lemma parse_row_for_tracks_ok (row : list string) feature attrs tattrs cps :
  _parse_row_for_tracks row = Ok (feature, attrs, tattrs, cps) ->
  exists t tid frm bs len_,
    _parse_row row = Ok (t, cps) /\
    row_info row = Ok (tid, frm, bs, len_) /\
    attrs = tag_attributes t /\
    tattrs = tag_track_attributes t /\
    feature = mkFeature frm bs (tag_head t) (tag_tail t)
                (if float_gt0 len_ then Some len_ else None)
                (dict_or_None (tag_attributes t)).
Proof.
  unfold _parse_row_for_tracks. intros H.
  inv_bind H. destruct a as [t cps'].
  inv_bind H. destruct a as [[[tid frm] bs] len_].
  injection H as <- <- <- <-.
  exists t, tid, frm, bs, len_. auto.
Qed.

(** C9.  When a row decodes and its field 8 parses to the number [x]:
    if [x <= 0] the feature has no [fishLength], and if [x > 0] the
    feature's [fishLength] is [x]. *)
Theorem fishLength_of_field8 (row : list string) feature attrs tattrs cps
    (text : string) (x : float) :
  _parse_row_for_tracks row = Ok (feature, attrs, tattrs, cps) ->
  getitem row 8 = Ok text ->
  py_float text = Some x ->
  (float_le0 x = true -> fishLength feature = None) /\
  (float_gt0 x = true -> fishLength feature = Some x).
Proof.
  intros H H8 Hx.
  apply parse_row_for_tracks_ok in H
    as (t & tid & frm & bs & len_ & _ & Hinfo & _ & _ & ->).
  apply row_info_field8 in Hinfo as (t8 & H8' & Hlen).
  assert (len_ = x) as -> by congruence.
  simpl. split.
  - intros Hle. now rewrite (le0_not_gt0 _ Hle).
  - now intros ->.
Qed.

Lemma getitem_last {A : Type} (l : list A) (d : A) :
  l <> [] -> getitem l (Z.of_nat (List.length l) - 1) = Ok (last l d).
Proof.
  intros Hl. unfold getitem.
  assert (0 < List.length l)%nat by (destruct l; simpl; [congruence | lia]).
  destruct (Z.ltb_spec (Z.of_nat (List.length l) - 1) 0); [lia |].
  destruct (Z.ltb_spec (Z.of_nat (List.length l) - 1) 0); [lia |].
  destruct (Z.leb_spec (Z.of_nat (List.length l)) (Z.of_nat (List.length l) - 1));
    [lia |].
  simpl.
  replace (Z.to_nat (Z.of_nat (List.length l) - 1)) with (List.length l - 1)%nat
    by lia.
  clear - Hl. induction l as [| a l IH]; [congruence |].
  destruct l as [| b l]; [reflexivity |].
  simpl in *. rewrite Nat.sub_0_r in IH. apply IH. congruence.
Qed.

Lemma getitem_length {A : Type} (l : list A) :
  getitem l (Z.of_nat (List.length l)) = Err IndexError.
Proof.
  unfold getitem.
  destruct (Z.ltb_spec (Z.of_nat (List.length l)) 0); [lia |].
  destruct (Z.ltb_spec (Z.of_nat (List.length l)) 0); [lia |].
  destruct (Z.leb_spec (Z.of_nat (List.length l)) (Z.of_nat (List.length l)));
    [reflexivity | lia].
Qed.

(** A scan whose last index is the last field, when that field is not a
    tag, reads one field past the end, unless it stops earlier at a score
    that [float] rejects. *)
Lemma confidence_scan_last (row : list string) (idxs : list Z) :
  row <> [] ->
  startswith "(" (last row "") = false ->
  confidence_scan row (idxs ++ [Z.of_nat (List.length row) - 1]) = Err IndexError \/
  (confidence_scan row (idxs ++ [Z.of_nat (List.length row) - 1]) = Err ValueError /\
   exists i, In i idxs /\ bad_score row i).
Proof.
  intros Hrow Hlast. induction idxs as [| i idxs IH]; simpl.
  - left. rewrite (getitem_last row "" Hrow); simpl. rewrite Hlast.
    replace (Z.of_nat (List.length row) - 1 + 1) with (Z.of_nat (List.length row))
      by lia.
    now rewrite getitem_length.
  - destruct (getitem row i) as [ri | e] eqn:Hi; simpl.
    2:{ left. unfold getitem in Hi.
        destruct (_ || _); [congruence |].
        destruct (nth_error _ _); simpl in Hi; congruence. }
    destruct (startswith "(" ri) eqn:Hp.
    + destruct IH as [IH | (IH & j & Hj & Hbad)]; [now left |].
      right. split; [assumption |]. exists j. split; [now right | assumption].
    + destruct (getitem row (i + 1)) as [text | e] eqn:Hi1; simpl.
      2:{ left. unfold getitem in Hi1.
          destruct (_ || _); [congruence |].
          destruct (nth_error _ _); simpl in Hi1; congruence. }
      unfold float_. destruct (py_float text) as [x |] eqn:Hx; simpl.
      * destruct IH as [-> | (-> & j & Hj & Hbad)]; simpl; [now left |].
        right. split; [reflexivity |]. exists j. split; [now right | assumption].
      * right. split; [reflexivity |]. exists i. split; [now left |].
        exists ri, text. auto.
Qed.

Lemma py_range_even_length (n : nat) :
  Nat.even n = true -> (9 <= n)%nat ->
  py_range 9 (Z.of_nat n) 2 =
  py_range 9 (Z.of_nat n - 1) 2 ++ [Z.of_nat n - 1].
Proof.
  intros He Hn. apply Nat.even_spec in He as [k ->].
  unfold py_range.
  replace ((Z.of_nat (2 * k) - 9 + 2 - 1) / 2) with (Z.of_nat k - 4).
  2:{ apply (Z.div_unique _ 2 _ 0); lia. }
  replace ((Z.of_nat (2 * k) - 1 - 9 + 2 - 1) / 2) with (Z.of_nat k - 5).
  2:{ apply (Z.div_unique _ 2 _ 1); lia. }
  replace (Z.to_nat (Z.of_nat k - 4)) with (S (Z.to_nat (Z.of_nat k - 5))) by lia.
  rewrite seq_S, map_app. cbn [map]. do 2 f_equal. lia.
Qed.

(** C10, as the code has it.  A row of even length with at least 9 fields
    whose last field does not begin with ["("] never decodes.  The
    confidence scan takes the last index as a label position and reads one
    field past the end of the row ([IndexError]), unless an earlier label
    position is followed by a field that [float] rejects, in which case
    that [ValueError] is raised first. *)
Theorem even_row_never_decodes (row : list string) :
  Nat.even (List.length row) = true ->
  (9 <= List.length row)%nat ->
  startswith "(" (last row "") = false ->
  _parse_row_for_tracks row = Err IndexError \/
  (_parse_row_for_tracks row = Err ValueError /\
   exists i, In i (py_range 9 (Z.of_nat (List.length row) - 1) 2) /\
             bad_score row i).
Proof.
  intros He Hn Hlast.
  assert (Hrow : row <> []) by (destruct row; simpl in *; [lia | congruence]).
  unfold _parse_row_for_tracks, _parse_row.
  rewrite (py_range_even_length _ He Hn).
  destruct (confidence_scan_last row
              (py_range 9 (Z.of_nat (List.length row) - 1) 2) Hrow Hlast)
    as [-> | (-> & Hbad)]; simpl; auto.
Qed.

(** ** Aggregation *)

(** What one successful iteration of the aggregation loop does: [old] is
    the track found under the row's identifier, or the track created for
    it. *)
Lemma aggregate_row_ok (tracks : pydict Z Track) (row : list string)
    (tracks' : pydict Z Track) :
  aggregate_row tracks row = Ok tracks' ->
  exists feature attrs tattrs cps tid frm bs len_ old attrs',
    _parse_row_for_tracks row = Ok (feature, attrs, tattrs, cps) /\
    row_info row = Ok (tid, frm, bs, len_) /\
    (dict_get tid tracks = Some old \/
     (dict_get tid tracks = None /\ old = mkTrack frm frm tid [] [] [])) /\
    merge_track_attributes (map fst tattrs) (trk_attributes old) = Ok attrs' /\
    tracks' =
      dict_set tid
        (mkTrack (Z.min frm (begin old)) (Z.max (end_ old) frm) (trackId old)
                 (features old ++ [feature]) cps attrs')
        tracks.
Proof.
  unfold aggregate_row. intros H.
  inv_bind H. destruct a as [[[feature attrs] tattrs] cps].
  inv_bind H. destruct a as [[[tid frm] bs] len_].
  inv_bind H. rename a into old. inv_bind H. rename a into attrs'.
  injection H as <-.
  exists feature, attrs, tattrs, cps, tid, frm, bs, len_, old, attrs'.
  repeat (split; [assumption |]).
  unfold dict_mem, dict_getitem in *.
  destruct (dict_get tid tracks) as [t |] eqn:Hget; simpl in *.
  - rewrite Hget in Ha1; simpl in Ha1. injection Ha1 as ->.
    repeat split; auto.
  - rewrite dict_get_set_same in Ha1; simpl in Ha1. injection Ha1 as <-.
    repeat split; auto. simpl. now rewrite dict_set_set.
Qed.

Lemma aggregate_app (tracks : pydict Z Track) (rows rows' : list (list string)) :
  aggregate tracks (rows ++ rows') =
  bind (aggregate tracks rows) (fun tracks' => aggregate tracks' rows').
Proof.
  revert tracks; induction rows as [| row rows IH]; intros tracks; simpl.
  - reflexivity.
  - destruct (aggregate_row tracks row); simpl; auto.
Qed.

(** C6.  After a sequence of rows has been aggregated, the track of the
    last row holds exactly the confidence pairs decoded from that last row,
    whatever the earlier rows of the track carried. *)
Theorem confidencePairs_last_row_wins (rows : list (list string))
    (row : list string) (tracks : pydict Z Track)
    feature attrs tattrs cps tid frm bs len_ :
  load_csv_as_tracks (rows ++ [row]) = Ok tracks ->
  _parse_row_for_tracks row = Ok (feature, attrs, tattrs, cps) ->
  row_info row = Ok (tid, frm, bs, len_) ->
  exists track,
    dict_get tid tracks = Some track /\ confidencePairs track = cps.
Proof.
  unfold load_csv_as_tracks. rewrite aggregate_app. intros H Hparse Hinfo.
  inv_bind H. simpl in H. inv_bind H. injection H as <-.
  apply aggregate_row_ok in Ha0
    as (feature' & attrs' & tattrs' & cps' & tid' & frm' & bs' & len' & old
        & attrs'' & Hparse' & Hinfo' & _ & _ & ->).
  rewrite Hparse in Hparse'. injection Hparse' as <- <- <- <-.
  rewrite Hinfo in Hinfo'. injection Hinfo' as <- <- <- <-.
  eexists. split; [apply dict_get_set_same | reflexivity].
Qed.

Lemma aggregate_row_range_ok (tracks tracks' : pydict Z Track)
    (row : list string) :
  Forall (fun kv => range_ok (snd kv)) tracks ->
  aggregate_row tracks row = Ok tracks' ->
  Forall (fun kv => range_ok (snd kv)) tracks'.
Proof.
  intros Hall H.
  apply aggregate_row_ok in H
    as (feature & attrs & tattrs & cps & tid & frm & bs & len_ & old & attrs'
        & Hparse & Hinfo & Hold & _ & ->).
  apply (dict_set_Forall range_ok); [assumption |].
  apply parse_row_for_tracks_ok in Hparse
    as (t & tid' & frm' & bs' & len' & _ & Hinfo' & _ & _ & ->).
  rewrite Hinfo in Hinfo'. injection Hinfo' as <- <- <- <-.
  unfold range_ok, frames; simpl. rewrite map_app; simpl.
  destruct Hold as [Hold | [_ ->]]; simpl.
  - apply (dict_get_Forall range_ok _ _ _ Hall) in Hold
      as (Hle & Hmin & Hmax).
    unfold frames in Hmin, Hmax.
    rewrite (list_min_snoc _ _ frm Hmin), (list_max_snoc _ _ frm Hmax).
    repeat split; lia.
  - repeat split; try lia; f_equal; lia.
Qed.

(** C7.  In every state the aggregation reaches, every track has
    [begin <= end], [begin] is the least and [end] the greatest frame of
    the features added to the track so far. *)
Theorem track_frame_range (reader : list (list string))
    (tracks : pydict Z Track) :
  load_csv_as_tracks reader = Ok tracks ->
  Forall (fun kv => range_ok (snd kv)) tracks.
Proof.
  unfold load_csv_as_tracks.
  assert (Hgen : forall start,
             Forall (fun kv => range_ok (snd kv)) start ->
             aggregate start reader = Ok tracks ->
             Forall (fun kv => range_ok (snd kv)) tracks).
  { induction reader as [| row reader IH]; intros start Hstart H; simpl in H.
    - now injection H as <-.
    - inv_bind H. eapply IH; [| exact H].
      eapply aggregate_row_range_ok; eauto. }
  apply Hgen. constructor.
Qed.

(** ** Row encoding *)

Lemma getitem_neg1 {A : Type} (init : list A) (p : A) :
  getitem (init ++ [p]) (-1) = Ok p.
Proof.
  unfold getitem. rewrite length_app. cbn [List.length].
  replace (-1 <? 0) with true by reflexivity.
  destruct (Z.ltb_spec (-1 + Z.of_nat (List.length init + 1)) 0); [lia |].
  destruct (Z.leb_spec (Z.of_nat (List.length init + 1))
                       (-1 + Z.of_nat (List.length init + 1))); [lia |].
  cbn [orb].
  replace (Z.to_nat (-1 + Z.of_nat (List.length init + 1)))
    with (List.length init) by lia.
  rewrite nth_error_app2 by lia. now rewrite Nat.sub_diag.
Qed.

Lemma feature_columns_no_pairs (track : Track) (feature : Feature) :
  confidencePairs track = [] -> feature_columns track feature = Err IndexError.
Proof.
  unfold feature_columns. now intros ->.
Qed.

Lemma feature_columns_field7 (track : Track) (feature : Feature)
    init label score :
  confidencePairs track = init ++ [(label, score)] ->
  exists columns,
    feature_columns track feature = Ok columns /\
    (List.length (bounds feature) = 4%nat ->
     nth_error columns 7 = Some (VFloat score)).
Proof.
  intros Hcp. unfold feature_columns. rewrite Hcp, getitem_neg1; simpl.
  eexists. split; [reflexivity |].
  intros Hb. destruct (bounds feature) as [| b0 [| b1 [| b2 [| b3 [| b4 bs]]]]];
    try discriminate.
  destruct (attributes feature); reflexivity.
Qed.

Lemma write_features_no_pairs (track : Track) (fs : list Feature) written :
  confidencePairs track = [] -> fs <> [] ->
  write_features track fs written = (written, Err IndexError).
Proof.
  intros Hcp Hfs. destruct fs as [| f fs]; [congruence |].
  simpl. now rewrite (feature_columns_no_pairs _ _ Hcp).
Qed.

Lemma write_features_field7 (track : Track) (fs : list Feature) written
    init label score :
  confidencePairs track = init ++ [(label, score)] ->
  exists rows,
    write_features track fs written = (written ++ rows, Ok tt) /\
    List.length rows = List.length fs /\
    (Forall (fun f => List.length (bounds f) = 4%nat) fs ->
     Forall (fun columns => nth_error columns 7 = Some (VFloat score)) rows).
Proof.
  intros Hcp. revert written; induction fs as [| f fs IH]; intros written; simpl.
  - exists []. rewrite app_nil_r. repeat split; auto.
  - destruct (feature_columns_field7 track f _ _ _ Hcp) as (columns & -> & H7).
    destruct (IH (written ++ [columns])) as (rows & -> & Hlen & Hall).
    exists (columns :: rows). rewrite <- app_assoc; simpl.
    repeat split; [now rewrite Hlen |].
    intros Hb; inversion Hb; subst. constructor; auto.
Qed.

(** C5, as the code has it.  A track with no confidence pairs and at
    least one feature cannot be exported: the export raises [IndexError]
    before any row of the track is written.  A track without features
    writes no row and raises nothing.  A track whose last confidence pair
    is [(label, score)] is written as one row per feature, and every row
    whose feature has four bounds carries [score] in field 7. *)
Theorem export_confidence (track : Track) (written : list (list pyval)) :
  (confidencePairs track = [] -> features track <> [] ->
   write_track_to_csv track written = (written, Err IndexError)) /\
  (features track = [] ->
   write_track_to_csv track written = (written, Ok tt)) /\
  (forall init label score,
     confidencePairs track = init ++ [(label, score)] ->
     exists rows,
       write_track_to_csv track written = (written ++ rows, Ok tt) /\
       List.length rows = List.length (features track) /\
       (Forall (fun f => List.length (bounds f) = 4%nat) (features track) ->
        Forall (fun columns => nth_error columns 7 = Some (VFloat score)) rows)).
Proof.
  unfold write_track_to_csv. repeat split.
  - apply write_features_no_pairs.
  - now intros ->.
  - intros init label score Hcp. eapply write_features_field7; eauto.
Qed.

Lemma mapM_length {A C : Type} (f : A -> result C) (l : list A) (l' : list C) :
  mapM f l = Ok l' -> List.length l' = List.length l.
Proof.
  revert l'; induction l as [| a l IH]; intros l' H; simpl in H.
  - now injection H as <-.
  - do 2 inv_bind H. injection H as <-. simpl. f_equal. auto.
Qed.

Lemma getitem_ok_bound {A : Type} (l : list A) (i : Z) (a : A) :
  0 <= i -> getitem l i = Ok a -> i < Z.of_nat (List.length l).
Proof.
  unfold getitem. intros Hi.
  destruct (Z.ltb_spec i 0); [lia |].
  destruct (Z.ltb_spec i 0); [lia |].
  destruct (Z.leb_spec (Z.of_nat (List.length l)) i); simpl; [discriminate | lia].
Qed.

(** A decoded row has exactly four bounds. *)
Lemma row_info_bounds (row : list string) tid frm bs len_ :
  row_info row = Ok (tid, frm, bs, len_) -> List.length bs = 4%nat.
Proof.
  unfold row_info. intros H. do 7 inv_bind H. injection H as <- <- <- <-.
  apply mapM_length in Ha3. apply getitem_ok_bound in Ha4; [| lia].
  rewrite Ha3. unfold slice. rewrite length_firstn, length_skipn. lia.
Qed.

(** The columns of one feature when the track has a last confidence
    pair. *)
Lemma feature_columns_ok (track : Track) (feature : Feature) init label score :
  confidencePairs track = init ++ [(label, score)] ->
  feature_columns track feature =
  Ok ([VInt (trackId track); VStr ""; VInt (frame feature)]
        ++ map VFloat (bounds feature)
        ++ [VFloat score; fishLength_or feature]
        ++ flat_map (fun pair => [VStr (fst pair); VFloat (snd pair)])
                    (confidencePairs track)
        ++ kp_columns feature
        ++ atr_columns "(atr) "
             (match attributes feature with Some d => d | None => [] end)
        ++ atr_columns "(trk-atr) " (trk_attributes track)).
Proof.
  intros Hcp. unfold feature_columns.
  replace (getitem (confidencePairs track) (-1)) with (Ok (label, score))
    by (rewrite Hcp; symmetry; apply getitem_neg1).
  cbn [bind snd]. f_equal.
  destruct (attributes feature); repeat rewrite <- app_assoc; reflexivity.
Qed.

Lemma fishLength_or_decoded frm bs h t (len_ : float) a :
  fishLength_or
    (mkFeature frm bs h t (if float_gt0 len_ then Some len_ else None) a) =
  (if float_gt0 len_ then VFloat len_ else VInt (-1)).
Proof.
  unfold fishLength_or; cbn [fishLength].
  destruct (float_gt0 len_) eqn:Hg; [now rewrite (gt0_truthy _ Hg) | reflexivity].
Qed.

Lemma atr_columns_or_None (prefix : string) (d : pydict string pyval) :
  atr_columns prefix (match dict_or_None d with Some d' => d' | None => [] end) =
  atr_columns prefix d.
Proof.
  now destruct d.
Qed.

(** C4, as the code has it.  A row that decodes to a track with one
    feature and one confidence pair is re-encoded as one row that carries
    the values of the fixed-position fields: the parsed track identifier in
    field 0, the parsed frame in field 2, the four parsed bounds in fields
    3-6, and in field 8 the parsed length when it is positive and the
    integer [-1] otherwise.  The suffix is in the canonical order:
    the confidence pair, the keypoints, the detection attributes, the track
    attributes. *)
Theorem reencode_single_row (row : list string) (tracks : pydict Z Track)
    feature attrs tattrs label score tid frm bs len_
    (written : list (list pyval)) :
  load_csv_as_tracks [row] = Ok tracks ->
  _parse_row_for_tracks row = Ok (feature, attrs, tattrs, [(label, score)]) ->
  row_info row = Ok (tid, frm, bs, len_) ->
  exists track,
    tracks = [(tid, track)] /\
    features track = [feature] /\
    confidencePairs track = [(label, score)] /\
    List.length bs = 4%nat /\
    write_track_to_csv track written =
      (written ++
         [[VInt tid; VStr ""; VInt frm] ++ map VFloat bs
            ++ [VFloat score; if float_gt0 len_ then VFloat len_ else VInt (-1)]
            ++ [VStr label; VFloat score]
            ++ kp_columns feature
            ++ atr_columns "(atr) " attrs
            ++ atr_columns "(trk-atr) " (trk_attributes track)],
       Ok tt).
Proof.
  unfold load_csv_as_tracks. simpl. intros H Hparse Hinfo.
  inv_bind H. injection H as <-.
  apply aggregate_row_ok in Ha
    as (feature' & attrs' & tattrs' & cps' & tid' & frm' & bs' & len' & old
        & attrs'' & Hparse' & Hinfo' & Hold & _ & ->).
  rewrite Hparse in Hparse'. injection Hparse' as <- <- <- <-.
  rewrite Hinfo in Hinfo'. injection Hinfo' as <- <- <- <-.
  destruct Hold as [Hold | [_ ->]]; [discriminate |].
  eexists. split; [reflexivity |]. simpl.
  repeat (split; [reflexivity |]).
  split; [eapply row_info_bounds; eauto |].
  apply parse_row_for_tracks_ok in Hparse
    as (t & tid' & frm' & bs' & len' & _ & Hinfo' & -> & _ & ->).
  rewrite Hinfo in Hinfo'. injection Hinfo' as <- <- <- <-.
  unfold write_track_to_csv. cbn [features app write_features].
  rewrite (feature_columns_ok _ _ [] label score) by reflexivity.
  cbn [trackId frame bounds confidencePairs trk_attributes attributes
       flat_map fst snd].
  rewrite fishLength_or_decoded, atr_columns_or_None.
  reflexivity.
Qed.

End ConverterProperties.

(** * Concrete inputs

    Closed statements, on the reference builtins [Ref.builtins]. *)

(** C2.  The two-line file decodes to exactly one track, with key 1,
    [begin = 0], [end = 1], two features in arrival order (frames 0 and 1),
    the first with [fishLength = 5.2] and the second without [fishLength],
    and the confidence pairs [[("fish", 0.9)]]. *)
Theorem two_row_import :
  exists f1 f2 : Feature,
    load_csv_as_tracks (csv_reader Sample.two_rows) =
      Ok [(1, mkTrack 0 1 1 [f1; f2] [("fish", Ref.DFin false 9 (-1))] [])] /\
    frame f1 = 0 /\ frame f2 = 1 /\
    fishLength f1 = py_float "5.2" /\
    py_float "5.2" = Some (Ref.DFin false 52 (-1)) /\
    fishLength f2 = None /\
    py_float "0.9" = Some (Ref.DFin false 9 (-1)).
Proof.
  do 2 eexists. split; [reflexivity |].
  repeat split.
Qed.

(** C1, at a row with the track attribute [color = red]: the row decodes
    to the track-attribute map [{"color": "red"}], and aggregating it
    raises [ValueError], because the merge loop unpacks the key ["color"]
    into two targets.  At a row with the attribute [ab = 1] the
    aggregation returns, with the entry ["a" -> "b"] in the track's
    attributes instead of ["ab" -> 1.0]. *)
Theorem track_attribute_merge_unpacks_keys :
  (exists feature attrs cps,
     _parse_row_for_tracks Sample.trk_atr_row =
       Ok (feature, attrs, [("color", VStr "red")], cps)) /\
  load_csv_as_tracks [Sample.trk_atr_row] = Err ValueError /\
  (exists feature attrs cps,
     _parse_row_for_tracks Sample.trk_atr_row2 =
       Ok (feature, attrs, [("ab", VFloat (Ref.DFin false 1 0))], cps)) /\
  (exists track,
     load_csv_as_tracks [Sample.trk_atr_row2] = Ok [(1, track)] /\
     trk_attributes track = [("a", VStr "b")]).
Proof.
  split; [do 3 eexists; reflexivity |].
  split; [reflexivity |].
  split; [do 3 eexists; reflexivity |].
  eexists. split; [reflexivity | reflexivity].
Qed.

(** C3, at a row with [(kp) head 12 34] and [(kp) tail 56 78]: the
    decoded feature's [head] and [tail] are pairs of the matched text, not
    of numbers. *)
Theorem keypoints_are_text :
  exists feature attrs tattrs cps,
    _parse_row_for_tracks Sample.kp_row = Ok (feature, attrs, tattrs, cps) /\
    head feature = Some (VStr "12", VStr "34") /\
    tail feature = Some (VStr "56", VStr "78").
Proof.
  do 4 eexists. split; [reflexivity |]. split; reflexivity.
Qed.

(** C4 fails as stated: the row with track identifier ["01"], bound
    ["10"] and length ["0"] decodes to a track with one feature and one
    confidence pair, and its re-encoding has the integer 1 (text ["1"]) in
    field 0 and the integer -1 (text ["-1"]) in field 8. *)
Lemma reencode_not_bytewise :
  exists track columns,
    load_csv_as_tracks [Sample.loose_row] = Ok [(1, track)] /\
    List.length (features track) = 1%nat /\
    List.length (confidencePairs track) = 1%nat /\
    write_track_to_csv track [] = ([columns], Ok tt) /\
    nth_error Sample.loose_row 0 = Some "01" /\
    option_map py_str (nth_error columns 0) = Some "1" /\
    nth_error Sample.loose_row 8 = Some "0" /\
    option_map py_str (nth_error columns 8) = Some "-1".
Proof.
  do 2 eexists. split; [reflexivity |].
  split; [reflexivity |]. split; [reflexivity |].
  split; [reflexivity |].
  repeat split.
Qed.

(** C5 fails as stated: exporting a track with no confidence pairs and
    no features raises nothing. *)
Lemma export_empty_track_no_error :
  confidencePairs Sample.empty_track = [] /\
  write_track_to_csv Sample.empty_track [] = ([], Ok tt).
Proof.
  split; reflexivity.
Qed.

(** C10 fails as stated: this 12-field row ends in a field that is not a
    tag, and decoding it raises [ValueError] at the score ["abc"], before
    the last index is reached. *)
Lemma even_row_value_error :
  Nat.even (List.length Sample.even_row_bad_score) = true /\
  (9 <= List.length Sample.even_row_bad_score)%nat /\
  startswith "(" (last Sample.even_row_bad_score "") = false /\
  _parse_row_for_tracks Sample.even_row_bad_score = Err ValueError.
Proof.
  split; [reflexivity |]. split; [simpl; lia |]. split; reflexivity.
Qed.

(** ** The general theorems at the sample inputs *)

(** [deduceType_precedence] at the tokens [true], [false], [12.5], [red]. *)
Lemma deduceType_precedence_witness :
  _deduceType "true" = VBool true /\
  _deduceType "false" = VBool false /\
  _deduceType "12.5" = VFloat (Ref.DFin false 125 (-1)) /\
  _deduceType "red" = VStr "red".
Proof.
  split; [apply (proj1 (deduceType_precedence "true")); reflexivity |].
  split; [apply (proj1 (proj2 (deduceType_precedence "false"))); reflexivity |].
  split.
  - apply (proj1 (proj2 (proj2 (deduceType_precedence "12.5"))));
      [discriminate | discriminate | reflexivity].
  - apply (proj2 (proj2 (proj2 (deduceType_precedence "red"))));
      [discriminate | discriminate | reflexivity].
Defined.

(** [fishLength_of_field8] at rows with the lengths [12.5] and [0]. *)
Lemma fishLength_of_field8_witness :
  (exists feature attrs tattrs cps,
     _parse_row_for_tracks Sample.long_row = Ok (feature, attrs, tattrs, cps) /\
     fishLength feature = Some (Ref.DFin false 125 (-1))) /\
  (exists feature attrs tattrs cps,
     _parse_row_for_tracks Sample.zero_row = Ok (feature, attrs, tattrs, cps) /\
     fishLength feature = None).
Proof.
  split.
  - do 4 eexists. split; [reflexivity |].
    refine (proj2 (fishLength_of_field8 Sample.long_row _ _ _ _ "12.5"
                     (Ref.DFin false 125 (-1)) _ _ _) _);
      reflexivity.
  - do 4 eexists. split; [reflexivity |].
    refine (proj1 (fishLength_of_field8 Sample.zero_row _ _ _ _ "0"
                     (Ref.DFin false 0 0) _ _ _) _);
      reflexivity.
Defined.

(** [even_row_never_decodes] at a 10-field row that ends in a label. *)
Lemma even_row_never_decodes_witness :
  _parse_row_for_tracks Sample.even_row = Err IndexError \/
  (_parse_row_for_tracks Sample.even_row = Err ValueError /\
   exists i,
     In i (py_range 9 (Z.of_nat (List.length Sample.even_row) - 1) 2) /\
     bad_score Sample.even_row i).
Proof.
  apply (even_row_never_decodes Sample.even_row);
    [reflexivity | simpl; lia | reflexivity].
Defined.

(** [confidencePairs_last_row_wins] at two rows of track 1, the first with
    [fish 0.9], the second with [fish 0.95] and [shark 0.2]. *)
Lemma confidencePairs_last_row_wins_witness :
  exists track,
    dict_get 1 (match load_csv_as_tracks ([Sample.pairs_row1] ++ [Sample.pairs_row2])
                with Ok tracks => tracks | Err _ => [] end) = Some track /\
    confidencePairs track =
      [("fish", Ref.DFin false 95 (-2)); ("shark", Ref.DFin false 2 (-1))].
Proof.
  eapply (confidencePairs_last_row_wins [Sample.pairs_row1] Sample.pairs_row2);
    reflexivity.
Defined.

(** [track_frame_range] at two rows of track 1 with the frames 3 and 7. *)
Lemma track_frame_range_witness :
  Forall (fun kv => range_ok (snd kv))
         [(1, mkTrack 3 7 1
                [mkFeature 3 [Ref.DFin false 1 1; Ref.DFin false 2 1;
                              Ref.DFin false 3 1; Ref.DFin false 4 1]
                           None None (Some (Ref.DFin false 52 (-1))) None;
                 mkFeature 7 [Ref.DFin false 11 0; Ref.DFin false 21 0;
                              Ref.DFin false 31 0; Ref.DFin false 41 0]
                           None None None None]
                [("fish", Ref.DFin false 95 (-2)); ("shark", Ref.DFin false 2 (-1))]
                [])].
Proof.
  apply (track_frame_range [Sample.pairs_row1; Sample.pairs_row2]).
  reflexivity.
Defined.

(** [export_confidence] at a track without pairs, a track without
    features, and a track with the pair [fish 0.9]. *)
Lemma export_confidence_witness :
  write_track_to_csv Sample.no_pairs_track [] = ([], Err IndexError) /\
  write_track_to_csv Sample.empty_track [] = ([], Ok tt) /\
  exists rows,
    write_track_to_csv Sample.fish_track [] = ([] ++ rows, Ok tt) /\
    List.length rows = List.length (features Sample.fish_track) /\
    Forall (fun columns =>
              nth_error columns 7 = Some (VFloat (Ref.DFin false 9 (-1)))) rows.
Proof.
  split.
  { apply (proj1 (export_confidence Sample.no_pairs_track []));
      [reflexivity | discriminate]. }
  split.
  { apply (proj1 (proj2 (export_confidence Sample.empty_track []))).
    reflexivity. }
  destruct (proj2 (proj2 (export_confidence Sample.fish_track []))
              [] "fish" (Ref.DFin false 9 (-1)) eq_refl)
    as (rows & Hw & Hlen & Hall).
  exists rows. split; [exact Hw |]. split; [exact Hlen |].
  apply Hall. repeat constructor.
Defined.

(** [reencode_single_row] at a row with one confidence pair and the
    length [5.2]. *)
Lemma reencode_single_row_witness :
  exists track,
    load_csv_as_tracks [Sample.fish_row] = Ok [(1, track)] /\
    write_track_to_csv track [] =
      ([[VInt 1; VStr ""; VInt 0;
         VFloat (Ref.DFin false 1 1); VFloat (Ref.DFin false 2 1);
         VFloat (Ref.DFin false 3 1); VFloat (Ref.DFin false 4 1);
         VFloat (Ref.DFin false 9 (-1)); VFloat (Ref.DFin false 52 (-1));
         VStr "fish"; VFloat (Ref.DFin false 9 (-1))]],
       Ok tt).
Proof.
  refine (match reencode_single_row Sample.fish_row _ _ _ _ _ _ _ _ _ _ [] _ _ _
          with ex_intro _ track (conj Htracks (conj _ (conj _ (conj _ Hw)))) =>
            ex_intro _ track _
          end); [reflexivity | reflexivity | reflexivity |].
  injection Htracks as <-. split; [reflexivity | exact Hw].
Defined.

(** * Further properties of the converter *)

Section MoreProperties.

Context {B : PyBuiltins}.

(** ** The decoder *)

Lemma getitem_nth {A : Type} (l : list A) (i : Z) (a : A) :
  0 <= i -> nth_error l (Z.to_nat i) = Some a -> getitem l i = Ok a.
Proof.
  intros Hi Hn. unfold getitem.
  assert (Z.to_nat i < List.length l)%nat
    by (apply nth_error_Some; congruence).
  destruct (Z.ltb_spec i 0); [lia |].
  destruct (Z.ltb_spec i 0); [lia |].
  destruct (Z.leb_spec (Z.of_nat (List.length l)) i); [lia |].
  now rewrite Hn.
Qed.

Lemma getitem_in_range {A : Type} (l : list A) (i : Z) :
  0 <= i < Z.of_nat (List.length l) -> exists a, getitem l i = Ok a.
Proof.
  intros Hi.
  destruct (nth_error l (Z.to_nat i)) as [a |] eqn:Hn.
  - exists a. apply getitem_nth; [lia | assumption].
  - apply nth_error_None in Hn. lia.
Qed.

Lemma py_range_odd (stop i : Z) :
  In i (py_range 9 stop 2) -> 9 <= i < stop /\ Z.odd i = true.
Proof.
  unfold py_range. intros Hin. apply in_map_iff in Hin as (k & <- & Hk).
  apply in_seq in Hk. simpl in Hk.
  assert (Hdiv : 2 * ((stop - 9 + 2 - 1) / 2) <= stop - 9 + 2 - 1)
    by (apply Z.mul_div_le; lia).
  split.
  - lia.
  - rewrite Z.mul_comm, Z.odd_add_mul_2. reflexivity.
Qed.

(** Every confidence pair that a scan collects is a label field that
    does not begin with ["("], with the number that [float] reads from
    the next field. *)
Lemma confidence_scan_pairs (row : list string) (idxs : list Z)
    (cps : list (string * float)) :
  confidence_scan row idxs = Ok cps ->
  Forall (fun p =>
            exists i text,
              In i idxs /\ getitem row i = Ok (fst p) /\
              startswith "(" (fst p) = false /\
              getitem row (i + 1) = Ok text /\ py_float text = Some (snd p))
         cps.
Proof.
  revert cps; induction idxs as [| i idxs IH]; intros cps H; simpl in H.
  - injection H as <-. constructor.
  - inv_bind H. destruct (startswith "(" a) eqn:Hp.
    + eapply Forall_impl; [| apply (IH _ H)].
      intros p (j & text & Hj & Hrest). exists j, text. split; [now right | exact Hrest].
    + do 4 inv_bind H. injection H as <-.
      rewrite Ha in Ha0. injection Ha0 as <-.
      constructor.
      * exists i, a1. simpl. repeat split; auto.
        unfold float_, of_option in Ha2. destruct (py_float a1); congruence.
      * eapply Forall_impl; [| apply (IH _ Ha3)].
        intros p (j & text & Hj & Hrest). exists j, text.
        split; [now right | exact Hrest].
Qed.

(** The confidence pairs of a row come from an odd index [i >= 9] whose
    field does not begin with ["("], paired with the float of field
    [i + 1], and are listed by increasing index. *)
Theorem confidence_pairs_positional (row : list string) (t : tags)
    (cps : list (string * float)) :
  _parse_row row = Ok (t, cps) ->
  Forall (fun p =>
            exists i text,
              9 <= i < Z.of_nat (List.length row) /\ Z.odd i = true /\
              getitem row i = Ok (fst p) /\
              startswith "(" (fst p) = false /\
              getitem row (i + 1) = Ok text /\ py_float text = Some (snd p))
         cps.
Proof.
  unfold _parse_row. intros H. do 2 inv_bind H. injection H as <- <-.
  apply confidence_scan_pairs in Ha.
  eapply Forall_impl; [| exact Ha].
  intros p (i & text & Hi & Hrest). exists i, text.
  apply py_range_odd in Hi as [Hi Hodd]. auto.
Qed.

(** A decoded feature has four bounds, comes from a row of at least 9
    fields, has no empty attribute dict, and has a positive length when it
    has one. *)
Theorem decoded_feature_wf (row : list string) feature attrs tattrs cps :
  _parse_row_for_tracks row = Ok (feature, attrs, tattrs, cps) ->
  (9 <= List.length row)%nat /\
  List.length (bounds feature) = 4%nat /\
  attributes feature <> Some [] /\
  (attributes feature = None <-> attrs = []) /\
  (forall x, fishLength feature = Some x -> float_gt0 x = true).
Proof.
  intros H.
  apply parse_row_for_tracks_ok in H
    as (t & tid & frm & bs & len_ & _ & Hinfo & -> & _ & ->).
  pose proof (row_info_bounds _ _ _ _ _ Hinfo) as Hb.
  apply row_info_field8 in Hinfo as (t8 & H8 & _).
  apply getitem_ok_bound in H8; [| lia].
  simpl. unfold dict_or_None.
  repeat split; try lia; try assumption.
  - destruct (tag_attributes t); simpl; congruence.
  - destruct (tag_attributes t); simpl; congruence.
  - intros ->. reflexivity.
  - intros x. destruct (float_gt0 len_) eqn:Hg; congruence.
Qed.

Lemma py_range_step1 (start stop j : Z) :
  In j (py_range start stop 1) -> start <= j < stop.
Proof.
  unfold py_range. intros Hin. apply in_map_iff in Hin as (k & <- & Hk).
  apply in_seq in Hk. simpl in Hk.
  replace (stop - start + 1 - 1) with (stop - start) in Hk by lia.
  rewrite Z.div_1_r in Hk. lia.
Qed.

Lemma confidence_scan_safe (row : list string) (idxs : list Z) :
  (forall i, In i idxs ->
     0 <= i < Z.of_nat (List.length row) /\
     (i + 1 < Z.of_nat (List.length row) \/
      exists a, getitem row i = Ok a /\ startswith "(" a = true)) ->
  forall e, confidence_scan row idxs = Err e -> e = ValueError.
Proof.
  induction idxs as [| i idxs IH]; intros Hall e H; simpl in H; [discriminate |].
  assert (Hrest : forall j, In j idxs ->
            0 <= j < Z.of_nat (List.length row) /\
            (j + 1 < Z.of_nat (List.length row) \/
             exists a, getitem row j = Ok a /\ startswith "(" a = true))
    by (intros j Hj; apply Hall; now right).
  destruct (Hall i (or_introl eq_refl)) as [Hi Hnext].
  destruct (getitem_in_range row i Hi) as [ri Hri].
  rewrite Hri in H. simpl in H.
  destruct (startswith "(" ri) eqn:Hp; [now apply IH |].
  destruct Hnext as [Hnext | (a & Ha & Hpa)]; [| congruence].
  destruct (getitem_in_range row (i + 1)) as [text Htext]; [lia |].
  rewrite Htext in H. simpl in H.
  unfold float_ in H. destruct (py_float text); simpl in H; [| congruence].
  destruct (confidence_scan row idxs) as [rest | e'] eqn:Hscan; simpl in H;
    [discriminate |].
  injection H as <-. now apply IH.
Qed.

Lemma tag_scan_safe (row : list string) (js : list Z) (t : tags) :
  (forall j, In j js -> 0 <= j < Z.of_nat (List.length row)) ->
  exists t', tag_scan row js t = Ok t'.
Proof.
  revert t; induction js as [| j js IH]; intros t Hall; simpl.
  - eauto.
  - destruct (getitem_in_range row j) as [rj ->]; [apply Hall; now left |].
    simpl. apply IH. intros k Hk. apply Hall. now right.
Qed.

Lemma mapM_float_safe (l : list string) (e : pyerr) :
  mapM float_ l = Err e -> e = ValueError.
Proof.
  induction l as [| a l IH]; simpl; [discriminate |].
  unfold float_ at 1. destruct (py_float a); simpl; [| congruence].
  destruct (mapM float_ l); simpl; [discriminate |].
  intros [= <-]. now apply IH.
Qed.

Lemma row_info_safe (row : list string) (e : pyerr) :
  (9 <= List.length row)%nat -> row_info row = Err e -> e = ValueError.
Proof.
  intros Hlen. unfold row_info.
  destruct (getitem_in_range row 0) as [r0 ->]; [lia |].
  destruct (getitem_in_range row 2) as [r2 ->]; [lia |].
  destruct (getitem_in_range row 8) as [r8 ->]; [lia |].
  simpl. unfold int_, float_.
  destruct (py_int r0); simpl; [| congruence].
  destruct (py_int r2); simpl; [| congruence].
  destruct (mapM (fun s => of_option ValueError (py_float s)) (slice row 3 7))
    eqn:Hm; simpl.
  - destruct (py_float r8); simpl; [discriminate | congruence].
  - intros [= <-]. now apply (mapM_float_safe _ _ Hm).
Qed.

Lemma decode_in_bounds (row : list string) (e : pyerr) :
  (9 <= List.length row)%nat ->
  Nat.odd (List.length row) = true \/ startswith "(" (last row "") = true ->
  _parse_row_for_tracks row = Err e -> e = ValueError.
Proof.
  intros Hlen Hshape. unfold _parse_row_for_tracks, _parse_row.
  assert (Hrow : row <> []) by (destruct row; simpl in *; [lia | congruence]).
  destruct (confidence_scan row (py_range 9 (Z.of_nat (List.length row)) 2))
    as [cps | e'] eqn:Hscan; simpl.
  2:{ intros [= <-]. apply (confidence_scan_safe _ _) in Hscan; [assumption |].
      intros i Hi. apply py_range_odd in Hi as [Hi Hodd]. split; [lia |].
      destruct Hshape as [Hn | Hlast].
      - left. apply Nat.odd_spec in Hn as [m Hm].
        apply Z.odd_spec in Hodd as [k Hk]. lia.
      - destruct (Z.eq_dec i (Z.of_nat (List.length row) - 1)) as [-> | Hne];
          [| left; lia].
        right. exists (last row ""). split; [| assumption].
        now apply getitem_last. }
  destruct (tag_scan_safe row
              (py_range (if Z.of_nat (List.length row) mod 2 =? 0
                         then Z.of_nat (List.length row) - 1
                         else Z.of_nat (List.length row) - 2)
                        (Z.of_nat (List.length row)) 1) no_tags) as [t ->].
  { intros j Hj. apply py_range_step1 in Hj.
    destruct (_ =? _); lia. }
  simpl. destruct (row_info row) as [[[[tid frm] bs] len_] | e'] eqn:Hinfo;
    simpl; [discriminate |].
  intros [= <-]. now apply (row_info_safe row).
Qed.

(** A row of at least 9 fields whose length is odd, or whose last field
    begins with ["("], is decoded without any out-of-bounds access: the
    only exception the decoder can raise on it is the [ValueError] of
    [int] or [float]. *)
Theorem decode_only_ValueError (row : list string) (e : pyerr) :
  (9 <= List.length row)%nat ->
  Nat.odd (List.length row) = true \/ startswith "(" (last row "") = true ->
  _parse_row_for_tracks row = Err e -> e = ValueError.
Proof.
  apply decode_in_bounds.
Qed.

Lemma py_range_last_two (n : Z) : py_range (n - 2) n 1 = [n - 2; n - 1].
Proof.
  unfold py_range. replace (n - (n - 2) + 1 - 1) with 2 by lia.
  cbn [Z.div Z.to_nat Z.div_eucl Z.pos_div_eucl]. simpl. f_equal; [lia |].
  f_equal. lia.
Qed.

Lemma py_range_last_one (n : Z) : py_range (n - 1) n 1 = [n - 1].
Proof.
  unfold py_range. replace (n - (n - 1) + 1 - 1) with 1 by lia.
  simpl. f_equal. lia.
Qed.

Lemma getitem_app_tail {A : Type} (pre l : list A) (k : nat) (a : A) :
  nth_error l k = Some a ->
  getitem (pre ++ l) (Z.of_nat (List.length pre) + Z.of_nat k) = Ok a.
Proof.
  intros Hn. apply getitem_nth; [lia |].
  replace (Z.to_nat (Z.of_nat (List.length pre) + Z.of_nat k))
    with (List.length pre + k)%nat by lia.
  rewrite nth_error_app2 by lia.
  now replace (List.length pre + k - List.length pre)%nat with k by lia.
Qed.

(** The tag scan reads the last two fields of a row of odd length and
    the last field of a row of even length, and nothing else: the tags of
    every earlier field are ignored. *)
Theorem tag_scan_window (pre : list string) (a b : string) (t : tags)
    (cps : list (string * float)) :
  (Nat.odd (List.length (pre ++ [a; b])) = true ->
   _parse_row (pre ++ [a; b]) = Ok (t, cps) ->
   t = scan_field (scan_field no_tags a) b) /\
  (Nat.even (List.length (pre ++ [b])) = true ->
   _parse_row (pre ++ [b]) = Ok (t, cps) ->
   t = scan_field no_tags b).
Proof.
  split; intros Hpar H; unfold _parse_row in H; inv_bind H; inv_bind H;
    injection H as <- <-.
  - apply Nat.odd_spec in Hpar as [m Hm].
    replace (Z.of_nat (List.length (pre ++ [a; b])) mod 2 =? 0) with false
      in Ha0.
    2:{ symmetry. apply Z.eqb_neq. rewrite Hm.
        replace (Z.of_nat (2 * m + 1)) with (1 + Z.of_nat m * 2) by lia.
        rewrite Z.mod_add by lia. discriminate. }
    rewrite py_range_last_two in Ha0. rewrite length_app in Ha0.
    cbn [List.length tag_scan] in Ha0.
    replace (Z.of_nat (List.length pre + 2) - 2)
      with (Z.of_nat (List.length pre) + Z.of_nat 0) in Ha0 by lia.
    replace (Z.of_nat (List.length pre + 2) - 1)
      with (Z.of_nat (List.length pre) + Z.of_nat 1) in Ha0 by lia.
    rewrite (getitem_app_tail pre [a; b] 0 a eq_refl) in Ha0.
    rewrite (getitem_app_tail pre [a; b] 1 b eq_refl) in Ha0.
    simpl in Ha0. congruence.
  - apply Nat.even_spec in Hpar as [m Hm].
    replace (Z.of_nat (List.length (pre ++ [b])) mod 2 =? 0) with true in Ha0.
    2:{ symmetry. apply Z.eqb_eq. rewrite Hm.
        replace (Z.of_nat (2 * m)) with (0 + Z.of_nat m * 2) by lia.
        rewrite Z.mod_add by lia. reflexivity. }
    rewrite py_range_last_one in Ha0. rewrite length_app in Ha0.
    cbn [List.length tag_scan] in Ha0.
    replace (Z.of_nat (List.length pre + 1) - 1)
      with (Z.of_nat (List.length pre) + Z.of_nat 0) in Ha0 by lia.
    rewrite (getitem_app_tail pre [b] 0 b eq_refl) in Ha0.
    simpl in Ha0. congruence.
Qed.

(** ** The aggregation loop *)

Lemma unpack2_ok (s : string) :
  (String.length s = 2%nat -> exists p, unpack2 s = Ok p) /\
  (String.length s <> 2%nat -> unpack2 s = Err ValueError).
Proof.
  destruct s as [| a [| b [| c s]]]; simpl; split; intros H;
    try discriminate; try congruence; eauto.
Qed.

Lemma merge_track_attributes_result (keys : list string)
    (attrs : pydict string pyval) :
  (Forall (fun k => String.length k = 2%nat) keys ->
   exists attrs', merge_track_attributes keys attrs = Ok attrs') /\
  (Exists (fun k => String.length k <> 2%nat) keys ->
   merge_track_attributes keys attrs = Err ValueError).
Proof.
  revert attrs; induction keys as [| k keys IH]; intros attrs; simpl.
  - split; [eauto | intros H; inversion H].
  - split.
    + intros H; inversion H as [| ? ? Hk Hks]; subst.
      destruct (proj1 (unpack2_ok k) Hk) as [[key val] ->]. simpl.
      now apply IH.
    + intros H. destruct (Nat.eq_dec (String.length k) 2) as [Hk | Hk].
      * destruct (proj1 (unpack2_ok k) Hk) as [[key val] ->]. simpl.
        apply IH. inversion H; subst; [contradiction | assumption].
      * now rewrite (proj2 (unpack2_ok k) Hk).
Qed.

(** Once a row decodes, aggregating it returns exactly when every
    track-attribute name decoded from it has two characters; a name of any
    other length makes the aggregation raise [ValueError].  In particular
    a decoded row without track attributes is always aggregated. *)
Theorem aggregate_row_track_attribute_names (tracks : pydict Z Track)
    (row : list string) feature attrs tattrs cps :
  _parse_row_for_tracks row = Ok (feature, attrs, tattrs, cps) ->
  (Forall (fun kv => String.length (fst kv) = 2%nat) tattrs ->
   exists tracks', aggregate_row tracks row = Ok tracks') /\
  (Exists (fun kv => String.length (fst kv) <> 2%nat) tattrs ->
   aggregate_row tracks row = Err ValueError).
Proof.
  intros Hparse. unfold aggregate_row. rewrite Hparse. simpl.
  apply parse_row_for_tracks_ok in Hparse
    as (t & tid & frm & bs & len_ & _ & -> & _ & _ & _).
  simpl.
  set (tracks1 := if negb (dict_mem tid tracks)
                  then dict_set tid (mkTrack frm frm tid [] [] []) tracks
                  else tracks).
  assert (Hget : exists track, dict_getitem tracks1 tid = Ok track).
  { unfold tracks1, dict_getitem, dict_mem.
    destruct (dict_get tid tracks) as [old |] eqn:Hold; simpl.
    - rewrite Hold. simpl. eauto.
    - rewrite dict_get_set_same. simpl. eauto. }
  destruct Hget as [track ->]. simpl.
  destruct (merge_track_attributes_result (map fst tattrs) (trk_attributes track))
    as [Hok Herr].
  split.
  - intros Hall. destruct Hok as [attrs' ->]; [| simpl; eauto].
    apply Forall_map. exact Hall.
  - intros Hex. rewrite Herr; [reflexivity |].
    apply Exists_map. exact Hex.
Qed.

(** There is no row-level error isolation: when some row of the input
    does not decode, the whole import raises and no tracks are returned. *)
Theorem import_fails_on_bad_row (reader : list (list string))
    (row : list string) (e : pyerr) :
  In row reader ->
  _parse_row_for_tracks row = Err e ->
  exists e', load_csv_as_tracks reader = Err e'.
Proof.
  intros Hin Hbad. unfold load_csv_as_tracks.
  generalize (@nil (Z * Track)) as tracks.
  induction reader as [| r reader IH]; intros tracks; [contradiction |].
  simpl. destruct Hin as [-> | Hin].
  - unfold aggregate_row. rewrite Hbad. simpl. eauto.
  - destruct (aggregate_row tracks r) as [tracks' | e']; simpl; [| eauto].
    now apply IH.
Qed.

Lemma dict_get_set_other {V : Type} (k k' : Z) (v : V) (d : pydict Z V) :
  k <> k' -> dict_get k (dict_set k' v d) = dict_get k d.
Proof.
  intros Hne. induction d as [| [k0 v0] d IH]; simpl.
  - unfold key_eqb, PyKey_Z. now rewrite (proj2 (Z.eqb_neq k k') Hne).
  - destruct (key_eqb k' k0) eqn:E; simpl.
    + apply Z.eqb_eq in E. subst k0.
      unfold key_eqb, PyKey_Z. now rewrite (proj2 (Z.eqb_neq k k') Hne).
    + now rewrite IH.
Qed.

Lemma dict_get_In {V : Type} (k : Z) (v : V) (d : pydict Z V) :
  dict_get k d = Some v -> In (k, v) d.
Proof.
  induction d as [| [k0 v0] d IH]; simpl; [discriminate |].
  destruct (key_eqb k k0) eqn:E.
  - apply Z.eqb_eq in E. intros [= <-]. left. congruence.
  - intros H. right. auto.
Qed.

Lemma dict_get_None_keys {V : Type} (k : Z) (d : pydict Z V) :
  dict_get k d = None -> ~ In k (map fst d).
Proof.
  induction d as [| [k0 v0] d IH]; simpl; [tauto |].
  destruct (key_eqb k k0) eqn:E; [discriminate |].
  apply Z.eqb_neq in E. intros H [Hk | Hk]; [congruence | now apply IH].
Qed.

Lemma dict_set_keys {V : Type} (k : Z) (v : V) (d : pydict Z V) :
  map fst (dict_set k v d) =
  if dict_mem k d then map fst d else map fst d ++ [k].
Proof.
  unfold dict_mem. induction d as [| [k0 v0] d IH]; simpl; [reflexivity |].
  destruct (key_eqb k k0) eqn:E; simpl; [reflexivity |].
  rewrite IH. now destruct (dict_get k d).
Qed.

Lemma dict_set_Forall_entries {V : Type} (P : Z * V -> Prop) (k : Z) (v : V)
    (d : pydict Z V) :
  Forall P d -> P (k, v) -> Forall P (dict_set k v d).
Proof.
  intros Hd Hv. induction d as [| [k0 v0] d IH]; simpl.
  - constructor; auto.
  - inversion Hd; subst. destruct (key_eqb k k0) eqn:E; constructor; auto.
    apply Z.eqb_eq in E. now subst k0.
Qed.

Lemma aggregate_row_keys (tracks tracks' : pydict Z Track) (row : list string) :
  NoDup (map fst tracks) ->
  Forall (fun kv => trackId (snd kv) = fst kv) tracks ->
  aggregate_row tracks row = Ok tracks' ->
  NoDup (map fst tracks') /\
  Forall (fun kv => trackId (snd kv) = fst kv) tracks'.
Proof.
  intros Hnd Hall H.
  apply aggregate_row_ok in H
    as (feature & attrs & tattrs & cps & tid & frm & bs & len_ & old & attrs'
        & _ & _ & Hold & _ & ->).
  split.
  - rewrite dict_set_keys. unfold dict_mem.
    destruct Hold as [Hold | [Hold _]]; rewrite Hold; [assumption |].
    apply NoDup_app; repeat split; [assumption | repeat constructor; auto | ].
    intros k Hk [<- | []]. now apply (dict_get_None_keys _ _ Hold).
  - apply dict_set_Forall_entries; [assumption |]. simpl.
    destruct Hold as [Hold | [_ ->]]; [| reflexivity].
    apply dict_get_In in Hold.
    now apply (proj1 (Forall_forall _ _) Hall) in Hold.
Qed.

(** The tracks of an import have pairwise distinct keys, and every track
    is stored under its own [trackId]. *)
Theorem import_keys_are_track_ids (reader : list (list string))
    (tracks : pydict Z Track) :
  load_csv_as_tracks reader = Ok tracks ->
  NoDup (map fst tracks) /\
  Forall (fun kv => trackId (snd kv) = fst kv) tracks.
Proof.
  unfold load_csv_as_tracks.
  assert (Hgen : forall start,
             NoDup (map fst start) ->
             Forall (fun kv => trackId (snd kv) = fst kv) start ->
             aggregate start reader = Ok tracks ->
             NoDup (map fst tracks) /\
             Forall (fun kv => trackId (snd kv) = fst kv) tracks).
  { induction reader as [| row reader IH]; intros start Hnd Hall H; simpl in H.
    - injection H as <-. auto.
    - inv_bind H.
      destruct (aggregate_row_keys _ _ _ Hnd Hall Ha) as [Hnd' Hall'].
      now apply (IH a). }
  apply Hgen; constructor.
Qed.

Lemma mapM_snoc {A C : Type} (f : A -> result C) (l : list A) (a : A)
    (cs : list C) (c : C) :
  mapM f l = Ok cs -> f a = Ok c -> mapM f (l ++ [a]) = Ok (cs ++ [c]).
Proof.
  revert cs; induction l as [| x l IH]; intros cs Hl Ha; simpl in *.
  - injection Hl as <-. now rewrite Ha.
  - do 2 inv_bind Hl. injection Hl as <-.
    rewrite Ha0. simpl. now rewrite (IH _ Ha1 Ha).
Qed.

Lemma rows_of_snoc (tid : Z) (reader : list (list string)) (row : list string)
    tid' frm bs len_ :
  row_info row = Ok (tid', frm, bs, len_) ->
  rows_of tid (reader ++ [row]) =
  rows_of tid reader ++ (if Z.eqb tid' tid then [row] else []).
Proof.
  intros Hinfo. unfold rows_of. rewrite filter_app. simpl. now rewrite Hinfo.
Qed.

(** The features of a track are the decoded features of the rows that
    carry its identifier, in the order of the rows; an identifier that is
    not a key of the result occurs in no row. *)
Theorem track_features_in_arrival_order (reader : list (list string))
    (tracks : pydict Z Track) (tid : Z) :
  load_csv_as_tracks reader = Ok tracks ->
  match dict_get tid tracks with
  | Some track => mapM feature_of (rows_of tid reader) = Ok (features track)
  | None => rows_of tid reader = []
  end.
Proof.
  unfold load_csv_as_tracks. revert tracks tid.
  induction reader as [| row reader IH] using rev_ind; intros tracks tid H.
  - simpl in H. injection H as <-. reflexivity.
  - rewrite aggregate_app in H. inv_bind H. simpl in H. inv_bind H.
    injection H as <-. rename a into tracks0.
    apply aggregate_row_ok in Ha0
      as (feature & attrs & tattrs & cps & tid0 & frm & bs & len_ & old & attrs'
          & Hparse & Hinfo & Hold & _ & ->).
    rewrite (rows_of_snoc tid reader row _ _ _ _ Hinfo).
    specialize (IH tracks0 tid Ha).
    destruct (Z.eqb_spec tid0 tid) as [<- | Hne].
    + rewrite dict_get_set_same. simpl.
      assert (Hf : feature_of row = Ok feature)
        by (unfold feature_of; now rewrite Hparse).
      destruct Hold as [Hold | [Hold ->]]; rewrite Hold in IH; simpl.
      * now apply mapM_snoc.
      * rewrite IH. simpl. now rewrite Hf.
    + rewrite dict_get_set_other by congruence.
      now rewrite app_nil_r.
Qed.

Lemma feature_count_set (tracks : pydict Z Track) (tid : Z) (old new : Track) :
  (dict_get tid tracks = Some old \/
   (dict_get tid tracks = None /\ features old = [])) ->
  (list_sum (map (fun kv => List.length (features (snd kv)))
                 (dict_set tid new tracks)) + List.length (features old) =
   list_sum (map (fun kv => List.length (features (snd kv))) tracks)
     + List.length (features new))%nat.
Proof.
  induction tracks as [| [k v] tracks IH]; simpl; intros Hold.
  - destruct Hold as [Hold | [_ ->]]; [discriminate | simpl; lia].
  - destruct (key_eqb tid k) eqn:E; simpl.
    + destruct Hold as [[= ->] | [Hold _]]; [lia | discriminate].
    + specialize (IH Hold). lia.
Qed.

Lemma aggregate_feature_count (reader : list (list string))
    (start tracks : pydict Z Track) :
  aggregate start reader = Ok tracks ->
  (list_sum (map (fun kv => List.length (features (snd kv))) tracks) =
   list_sum (map (fun kv => List.length (features (snd kv))) start)
     + List.length reader)%nat.
Proof.
  revert start; induction reader as [| row reader IH]; intros start H;
    simpl in H.
  - injection H as <-. simpl. lia.
  - inv_bind H. rewrite (IH _ H). simpl.
    apply aggregate_row_ok in Ha
      as (feature & attrs & tattrs & cps & tid & frm & bs & len_ & old & attrs'
          & _ & _ & Hold & _ & ->).
    pose proof (feature_count_set start tid old
                  (mkTrack (Z.min frm (begin old)) (Z.max (end_ old) frm)
                           (trackId old) (features old ++ [feature]) cps attrs'))
      as Hc.
    simpl in Hc. rewrite length_app in Hc. simpl in Hc.
    destruct Hold as [Hold | [Hold ->]].
    + specialize (Hc (or_introl Hold)). lia.
    + specialize (Hc (or_intror (conj Hold eq_refl))). simpl in Hc |- *. lia.
Qed.

(** Every row of the input becomes exactly one feature: the tracks of an
    import hold as many features as the input has rows. *)
Theorem import_one_feature_per_row (reader : list (list string))
    (tracks : pydict Z Track) :
  load_csv_as_tracks reader = Ok tracks ->
  list_sum (map (fun kv => List.length (features (snd kv))) tracks) =
  List.length reader.
Proof.
  intros H. apply aggregate_feature_count in H. simpl in H. lia.
Qed.

(** ** The encoder *)

Lemma write_track_shape (track : Track) (written : list (list pyval)) :
  (exists rows,
     write_track_to_csv track written = (written ++ rows, Ok tt) /\
     List.length rows = List.length (features track)) \/
  (write_track_to_csv track written = (written, Err IndexError) /\
   confidencePairs track = [] /\ features track <> []).
Proof.
  unfold write_track_to_csv.
  destruct (confidencePairs track) as [| p ps] eqn:Hcp.
  - destruct (features track) as [| f fs] eqn:Hfs.
    + left. exists []. simpl. now rewrite app_nil_r.
    + right. rewrite write_features_no_pairs by congruence.
      repeat split; congruence.
  - left.
    destruct (exists_last (l := p :: ps)) as (init & [label score] & Hlast);
      [discriminate |].
    rewrite Hlast in Hcp.
    destruct (write_features_field7 track (features track) written _ _ _ Hcp)
      as (rows & Hw & Hlen & _).
    eauto.
Qed.

(** A track is written entirely or not at all: either the export appends
    one row per feature to what was written and returns, or it appends
    nothing and raises [IndexError], and then the track has features but
    no confidence pair. *)
Theorem write_track_all_or_nothing (track : Track)
    (written written' : list (list pyval)) (r : result unit) :
  write_track_to_csv track written = (written', r) ->
  (r = Ok tt /\
   exists rows, written' = written ++ rows /\
                List.length rows = List.length (features track)) \/
  (r = Err IndexError /\ written' = written /\
   confidencePairs track = [] /\ features track <> []).
Proof.
  intros H.
  destruct (write_track_shape track written)
    as [(rows & Hw & Hlen) | (Hw & Hcp & Hfs)]; rewrite Hw in H;
    injection H as <- <-.
  - left. eauto.
  - right. auto.
Qed.

Lemma write_tracks_ok (tracks : list Track) (written : list (list pyval)) :
  Forall (fun t => confidencePairs t <> [] \/ features t = []) tracks ->
  exists rows,
    write_tracks tracks written = (written ++ rows, Ok tt) /\
    List.length rows = list_sum (map (fun t => List.length (features t)) tracks).
Proof.
  revert written; induction tracks as [| t tracks IH]; intros written Hall;
    simpl.
  - exists []. now rewrite app_nil_r.
  - inversion Hall as [| ? ? Ht Hts]; subst.
    destruct (write_track_shape t written)
      as [(rows & -> & Hlen) | (_ & Hcp & Hfs)]; [| tauto].
    destruct (IH (written ++ rows) Hts) as (rows' & -> & Hlen').
    exists (rows ++ rows'). rewrite app_assoc, length_app. split; [reflexivity | lia].
Qed.

Lemma write_tracks_err (tracks : list Track) (written : list (list pyval)) :
  Exists (fun t => confidencePairs t = [] /\ features t <> []) tracks ->
  exists written', write_tracks tracks written = (written', Err IndexError).
Proof.
  revert written; induction tracks as [| t tracks IH]; intros written Hex;
    simpl; [inversion Hex |].
  destruct (write_track_shape t written)
    as [(rows & Hw & Hlen) | (-> & Hcp & Hfs)]; [| eauto].
  rewrite Hw. apply IH.
  inversion Hex as [? ? [Hcp Hfs] | ]; subst; [| assumption].
  exfalso. unfold write_track_to_csv in Hw.
  rewrite (write_features_no_pairs t _ written Hcp Hfs) in Hw. discriminate.
Qed.

Lemma write_features_rows (track : Track) (fs : list Feature)
    (written written' : list (list pyval)) :
  write_features track fs written = (written', Ok tt) ->
  exists rows,
    mapM (feature_columns track) fs = Ok rows /\ written' = written ++ rows.
Proof.
  revert written; induction fs as [| f fs IH]; intros written H; simpl in *.
  - injection H as <-. exists []. now rewrite app_nil_r.
  - destruct (feature_columns track f) as [columns | e]; [| discriminate].
    destruct (IH _ H) as (rows & -> & ->). simpl.
    exists (columns :: rows). now rewrite <- app_assoc.
Qed.

Lemma write_tracks_rows (tracks : list Track)
    (written written' : list (list pyval)) :
  write_tracks tracks written = (written', Ok tt) ->
  exists rowss,
    mapM (fun t => mapM (feature_columns t) (features t)) tracks = Ok rowss /\
    written' = written ++ List.concat rowss.
Proof.
  revert written; induction tracks as [| t tracks IH]; intros written H;
    simpl in *.
  - injection H as <-. exists []. simpl. now rewrite app_nil_r.
  - destruct (write_track_to_csv t written) as [w [[] | e]] eqn:Hw;
      [| discriminate].
    apply write_features_rows in Hw as (rows & -> & ->).
    destruct (IH _ H) as (rowss & -> & ->). simpl.
    exists (rows :: rowss). simpl. now rewrite app_assoc.
Qed.

(** The rows of an export are the rows of the first track, then the rows
    of the second, and so on; within a track they follow the order of its
    features, one row per feature. *)
Theorem export_rows_in_track_then_feature_order {K : Type}
    (tracks : pydict K Track) (rows : list (list pyval)) :
  export_rows tracks = Ok rows ->
  exists rowss,
    mapM (fun t => mapM (feature_columns t) (features t)) (map snd tracks)
      = Ok rowss /\
    rows = List.concat rowss /\
    Forall2 (fun t rs => List.length rs = List.length (features t))
            (map snd tracks) rowss.
Proof.
  unfold export_rows. intros H.
  destruct (write_tracks (map snd tracks) []) as [w [[] | e]] eqn:Hw;
    [| discriminate].
  injection H as <-.
  apply write_tracks_rows in Hw as (rowss & Hm & ->).
  exists rowss. repeat split; [assumption |].
  clear - Hm. revert rowss Hm.
  induction (map snd tracks) as [| t ts IH]; intros rowss Hm; simpl in Hm.
  - injection Hm as <-. constructor.
  - do 2 inv_bind Hm. injection Hm as <-.
    constructor; [now apply mapM_length in Ha | now apply IH].
Qed.

(** An export returns exactly when every track that has a feature also
    has a confidence pair; a track with features and no pair makes the
    whole export raise [IndexError], and no text is returned. *)
Theorem export_rows_result {K : Type} (tracks : pydict K Track) :
  (Forall (fun kv => confidencePairs (snd kv) <> [] \/ features (snd kv) = [])
          tracks ->
   exists rows,
     export_rows tracks = Ok rows /\
     List.length rows =
       list_sum (map (fun kv => List.length (features (snd kv))) tracks)) /\
  (Exists (fun kv => confidencePairs (snd kv) = [] /\ features (snd kv) <> [])
          tracks ->
   export_rows tracks = Err IndexError).
Proof.
  unfold export_rows. split.
  - intros Hall.
    destruct (write_tracks_ok (map snd tracks) []) as (rows & -> & Hlen).
    { apply Forall_map. exact Hall. }
    exists rows. split; [reflexivity |]. now rewrite map_map in Hlen.
  - intros Hex.
    destruct (write_tracks_err (map snd tracks) []) as (w & ->);
      [| reflexivity].
    apply Exists_map. exact Hex.
Qed.

Lemma concat_length_sum {A : Type} (ls : list (list A)) :
  List.length (List.concat ls) = list_sum (map (@List.length A) ls).
Proof.
  induction ls as [| l ls IH]; simpl; [reflexivity |].
  now rewrite length_app, IH.
Qed.

(** Import followed by export keeps the number of rows: when the tracks
    of an import are exported, the export writes as many rows as the
    import read. *)
Theorem import_export_row_count (reader : list (list string))
    (tracks : pydict Z Track) (rows : list (list pyval)) :
  load_csv_as_tracks reader = Ok tracks ->
  export_rows tracks = Ok rows ->
  List.length rows = List.length reader.
Proof.
  intros Hload Hexp.
  apply aggregate_feature_count in Hload. simpl in Hload.
  rewrite <- Hload. clear Hload.
  unfold export_rows in Hexp.
  destruct (write_tracks (map snd tracks) []) as [w [[] | e]] eqn:Hw;
    [| discriminate].
  injection Hexp as <-.
  apply write_tracks_rows in Hw as (rowss & Hm & ->). simpl.
  rewrite concat_length_sum.
  rewrite <- (map_map snd (fun t => List.length (features t))).
  revert rowss Hm.
  induction (map snd tracks) as [| t ts IH]; intros rowss Hm; simpl in Hm.
  - now injection Hm as <-.
  - do 2 inv_bind Hm. injection Hm as <-. simpl.
    apply mapM_length in Ha. rewrite Ha. f_equal. now apply IH.
Qed.

Lemma kp_columns_tags (feature : Feature) :
  Forall (fun v => startswith "(" (py_str v) = true) (kp_columns feature).
Proof.
  unfold kp_columns. destruct (head feature), (tail feature);
    repeat constructor.
Qed.

Lemma atr_columns_tags (d : pydict string pyval) :
  Forall (fun v => startswith "(" (py_str v) = true) (atr_columns "(atr) " d) /\
  Forall (fun v => startswith "(" (py_str v) = true)
         (atr_columns "(trk-atr) " d).
Proof.
  unfold atr_columns. destruct (dict_truthy d); [| split; constructor].
  split; apply Forall_map, Forall_forall; intros kv _; reflexivity.
Qed.

Lemma flat_pairs_length (cps : list (string * float)) :
  List.length (flat_map (fun pair => [VStr (fst pair); VFloat (snd pair)]) cps)
  = (2 * List.length cps)%nat.
Proof.
  induction cps as [| p cps IH]; simpl; [reflexivity | rewrite IH; lia].
Qed.

Lemma last_app_nonempty {A : Type} (l l' : list A) (d : A) :
  l' <> [] -> last (l ++ l') d = last l' d.
Proof.
  intros Hl'. destruct (exists_last Hl') as (init & x & ->).
  now rewrite app_assoc, !last_last.
Qed.

(** What the encoder writes can be read back without an out-of-bounds
    access: for a feature with four bounds, the row whose fields are the
    texts of the written cells makes the decoder raise nothing but the
    [ValueError] of [int] or [float]. *)
Theorem encoded_row_decodes_in_bounds (track : Track) (feature : Feature)
    (columns : list pyval) :
  feature_columns track feature = Ok columns ->
  List.length (bounds feature) = 4%nat ->
  (exists decoded, _parse_row_for_tracks (map py_str columns) = Ok decoded) \/
  _parse_row_for_tracks (map py_str columns) = Err ValueError.
Proof.
  intros Hcols Hb.
  destruct (_parse_row_for_tracks (map py_str columns)) as [decoded | e] eqn:He;
    [left; eauto | right; f_equal].
  revert He.
  destruct (confidencePairs track) as [| p ps] eqn:Hcp.
  { rewrite (feature_columns_no_pairs _ _ Hcp) in Hcols. discriminate. }
  destruct (exists_last (l := p :: ps)) as (init & [label score] & Hlast);
    [discriminate |].
  rewrite Hlast in Hcp.
  rewrite (feature_columns_ok _ _ _ _ _ Hcp) in Hcols.
  pose (fixed := [VInt (trackId track); VStr ""; VInt (frame feature)]
                  ++ map VFloat (bounds feature)
                  ++ [VFloat score; fishLength_or feature]
                  ++ flat_map (fun pair => [VStr (fst pair); VFloat (snd pair)])
                              (confidencePairs track)).
  pose (tagcols := kp_columns feature
                    ++ atr_columns "(atr) "
                         (match attributes feature with
                          | Some d => d
                          | None => []
                          end)
                    ++ atr_columns "(trk-atr) " (trk_attributes track)).
  assert (Hsplit : columns = fixed ++ tagcols).
  { unfold fixed, tagcols. rewrite <- !app_assoc. congruence. }
  rewrite Hsplit. clear Hsplit Hcols.
  assert (Hfixed : List.length fixed = (9 + 2 * List.length (confidencePairs track))%nat).
  { unfold fixed. rewrite !length_app, length_map, flat_pairs_length, Hb.
    simpl. lia. }
  assert (Htags : Forall (fun v => startswith "(" (py_str v) = true) tagcols).
  { unfold tagcols. rewrite !Forall_app. repeat split.
    - apply kp_columns_tags.
    - apply atr_columns_tags.
    - apply atr_columns_tags. }
  apply decode_in_bounds.
  - rewrite length_map, length_app. lia.
  - destruct tagcols as [| v tagcols'] eqn:Htc.
    + left. rewrite app_nil_r, length_map, Hfixed.
      rewrite Nat.odd_add_mul_2. reflexivity.
    + right. rewrite map_app, last_app_nonempty by discriminate.
      rewrite <- Htc in *.
      assert (Hne : tagcols <> []) by (rewrite Htc; discriminate).
      destruct (exists_last Hne) as (init' & x & Hx).
      rewrite Hx in *. rewrite map_app. simpl. rewrite last_last.
      apply Forall_app in Htags as [_ Htags]. now inversion Htags.
Qed.

(** ** The patterns *)

(** The characters a group has already taken only extend the first
    captured group. *)
Lemma re_group_acc (cls : ascii -> bool) (p' : list re_item) (s : string)
    (acc : list ascii) :
  (fix take (acc : list ascii) (s : string) : option (list string) :=
     match s with
     | String x s' =>
         if cls x then
           match take (x :: acc) s' with
           | Some gs => Some gs
           | None =>
               option_map (cons (rev_string (x :: acc) "")) (re_match p' s')
           end
         else None
     | EmptyString => None
     end) acc s =
  option_map (fun gs => match gs with
                        | g :: gs' => rev_string acc g :: gs'
                        | [] => []
                        end)
             (re_match (Group1 cls :: p') s).
Proof.
  revert acc; induction s as [| x s IH]; intros acc; [reflexivity |].
  cbn [re_match]. destruct (cls x); [| reflexivity].
  rewrite (IH (x :: acc)), (IH [x]).
  destruct (re_match (Group1 cls :: p') s) as [[| g gs] |]; simpl;
    try reflexivity.
  now destruct (re_match p' s).
Qed.

(** A group takes as many characters as it can, and gives one back at a
    time while the rest of the pattern does not match. *)
Lemma re_match_group (cls : ascii -> bool) (p' : list re_item) (x : ascii)
    (s : string) :
  re_match (Group1 cls :: p') (String x s) =
  if cls x then
    match re_match (Group1 cls :: p') s with
    | Some (g :: gs) => Some (String x g :: gs)
    | Some [] => Some []
    | None => option_map (cons (String x "")) (re_match p' s)
    end
  else None.
Proof.
  remember (re_match (Group1 cls :: p') s) as r eqn:Hr.
  cbn [re_match]. destruct (cls x); [| reflexivity].
  rewrite (re_group_acc cls p' s [x]), <- Hr.
  now destruct r as [[| g gs] |].
Qed.

Lemma re_match_last_group (cls : ascii -> bool) (w : string) :
  w <> "" -> all_chars cls w = true -> re_match [Group1 cls] w = Some [w].
Proof.
  induction w as [| x w IH]; [congruence |]. intros _ Hall.
  simpl in Hall. apply andb_true_iff in Hall as [Hx Hw].
  rewrite re_match_group, Hx.
  destruct w as [| y w]; [reflexivity |].
  now rewrite IH.
Qed.

Lemma re_match_needs_space (q : list re_item) (w : string) :
  all_chars not_space w = true ->
  re_match (Group1 re_dot :: Lit " "%char :: q) w = None.
Proof.
  induction w as [| x w IH]; [reflexivity |]. intros Hall.
  simpl in Hall. apply andb_true_iff in Hall as [Hx Hw].
  rewrite re_match_group, (IH Hw).
  destruct (re_dot x); [| reflexivity].
  destruct w as [| y w]; [reflexivity |].
  simpl in Hw. apply andb_true_iff in Hw as [Hy _].
  unfold not_space in Hy. apply negb_true_iff in Hy.
  cbn [re_match]. now rewrite Hy.
Qed.

Lemma re_match_name_value (k w : string) :
  k <> "" -> all_chars re_dot k = true ->
  w <> "" -> all_chars re_dot w = true -> all_chars not_space w = true ->
  re_match [Group1 re_dot; Lit " "%char; Group1 re_dot]
           (k ++ String " "%char w)%string = Some [k; w].
Proof.
  intros Hk Hkd Hw Hwd Hws.
  assert (Hrest : re_match [Lit " "%char; Group1 re_dot] (String " "%char w)
                  = Some [w]).
  { cbn [re_match]. simpl Ascii.eqb. cbv iota.
    now apply re_match_last_group. }
  assert (Hnone : re_match [Group1 re_dot; Lit " "%char; Group1 re_dot]
                           (String " "%char w) = None).
  { rewrite re_match_group. simpl re_dot. cbv iota.
    rewrite (re_match_needs_space _ w Hws).
    destruct w as [| y w']; [congruence |].
    simpl in Hws. apply andb_true_iff in Hws as [Hy _].
    unfold not_space in Hy. apply negb_true_iff in Hy.
    cbn [re_match]. now rewrite Hy. }
  induction k as [| x k IH]; [congruence |].
  simpl in Hkd. apply andb_true_iff in Hkd as [Hx Hkd].
  simpl String.append. rewrite re_match_group, Hx.
  destruct k as [| y k].
  - simpl String.append. rewrite Hnone, Hrest. reflexivity.
  - rewrite IH; [reflexivity | discriminate | assumption].
Qed.

(** An attribute field is split at its last space: for a name [k] (which
    may contain spaces) and a value text [w] without spaces, both
    non-empty and free of newlines, the field [(atr) k w] matches with
    the groups [k] and [w], and so does [(trk-atr) k w]. *)
Theorem attribute_field_split (k w : string) :
  k <> "" -> all_chars re_dot k = true ->
  w <> "" -> all_chars re_dot w = true -> all_chars not_space w = true ->
  re_match re_atr ("(atr) " ++ k ++ String " "%char w)%string = Some [k; w] /\
  re_match re_trk_atr ("(trk-atr) " ++ k ++ String " "%char w)%string
    = Some [k; w].
Proof.
  intros Hk Hkd Hw Hwd Hws.
  pose proof (re_match_name_value k w Hk Hkd Hw Hwd Hws) as H.
  split; exact H.
Qed.





Lemma re_digit_not (c d : ascii) :
  re_digit d = false -> re_digit c = true -> Ascii.eqb c d = false.
Proof.
  intros Hd Hc. destruct (Ascii.eqb_spec c d) as [-> | _]; congruence.
Qed.


Lemma re_match_digits_space (q : list re_item) (x s : string) :
  x <> "" -> all_chars re_digit x = true ->
  re_match (Group1 re_digit :: Lit " "%char :: q) (x ++ String " "%char s)%string
  = option_map (cons x) (re_match q s).
Proof.
  induction x as [| c x IH]; [congruence |]. intros _ Hall.
  simpl in Hall. apply andb_true_iff in Hall as [Hc Hx].
  simpl String.append. rewrite re_match_group, Hc.
  destruct x as [| d x].
  - simpl String.append. rewrite re_match_group.
    replace (re_digit " "%char) with false by reflexivity.
    cbn [re_match]. replace (Ascii.eqb " "%char " "%char) with true by reflexivity.
    reflexivity.
  - rewrite IH by (discriminate || assumption).
    destruct (re_match q s) as [gs |]; [reflexivity |].
    simpl in Hx. apply andb_true_iff in Hx as [Hd _].
    simpl. now rewrite (re_digit_not d " "%char eq_refl Hd).
Qed.

Lemma re_match_digits_end (y rest : string) :
  y <> "" -> all_chars re_digit y = true ->
  match rest with
  | EmptyString => True
  | String c _ => re_digit c = false
  end ->
  re_match [Group1 re_digit] (y ++ rest)%string = Some [y].
Proof.
  induction y as [| c y IH]; [congruence |]. intros _ Hall Hrest.
  simpl in Hall. apply andb_true_iff in Hall as [Hc Hy].
  simpl String.append. rewrite re_match_group, Hc.
  destruct y as [| d y].
  - simpl String.append. destruct rest as [| r rest]; [reflexivity |].
    rewrite re_match_group, Hrest. reflexivity.
  - now rewrite IH.
Qed.

(** A keypoint field [(kp) head X Y] with two non-empty runs of digits
    matches with the groups [X] and [Y]; what follows [Y] is ignored, as
    long as it does not begin with a digit.  Likewise for [tail]. *)
Theorem keypoint_field_match (x y rest : string) :
  x <> "" -> all_chars re_digit x = true ->
  y <> "" -> all_chars re_digit y = true ->
  match rest with
  | EmptyString => True
  | String c _ => re_digit c = false
  end ->
  re_match re_kp_head ("(kp) head " ++ x ++ " " ++ y ++ rest)%string
    = Some [x; y] /\
  re_match re_kp_tail ("(kp) tail " ++ x ++ " " ++ y ++ rest)%string
    = Some [x; y].
Proof.
  intros Hx Hxd Hy Hyd Hrest.
  assert (H : re_match [Group1 re_digit; Lit " "%char; Group1 re_digit]
                (x ++ String " "%char (y ++ rest))%string = Some [x; y]).
  { rewrite re_match_digits_space by assumption.
    now rewrite re_match_digits_end. }
  split; exact H.
Qed.


(** ** [asdict] *)


Lemma map_injective {A C : Type} (f : A -> C) :
  (forall x y, f x = f y -> x = y) ->
  forall l l', map f l = map f l' -> l = l'.
Proof.
  intros Hf. induction l as [| a l IH]; intros [| a' l'] H; simpl in H;
    try discriminate; [reflexivity |].
  injection H as Ha Hl. now rewrite (Hf _ _ Ha), (IH _ Hl).
Qed.

Lemma Feature_asdict_inj (f g : Feature) :
  Feature_asdict f = Feature_asdict g -> f = g.
Proof.
  destruct f as [f1 f2 [f3 |] [f4 |] [f5 |] [f6 |]],
           g as [g1 g2 [g3 |] [g4 |] [g5 |] [g6 |]];
    unfold Feature_asdict; cbn [frame bounds head tail fishLength attributes
                                entry app];
    intros H; injection H; intros; subst; try reflexivity; discriminate.
Qed.

(** The dicts that an import returns lose nothing: two track collections
    with the same [asdict] form are equal. *)
Theorem tracks_asdict_injective (tracks tracks' : pydict Z Track) :
  tracks_asdict tracks = tracks_asdict tracks' -> tracks = tracks'.
Proof.
  unfold tracks_asdict. revert tracks'.
  induction tracks as [| [k t] tracks IH]; intros [| [k' t'] tracks'] H;
    simpl in H; try discriminate; [reflexivity |].
  injection H as Hk Hb He Hid Hfs Hcp Hat Hrest.
  rewrite (IH _ Hrest). subst k'.
  assert (Hf : features t = features t')
    by (apply (map_injective _ Feature_asdict_inj _ _ Hfs)).
  destruct t, t'. simpl in *. congruence.
Qed.

(** ** The lines of the input *)

Lemma split_acc_line (sep : ascii) (line rest : string) (acc : list ascii) :
  all_chars (fun c => negb (Ascii.eqb c sep)) line = true ->
  split_acc sep (line ++ String sep rest)%string acc =
  rev_string acc line :: split_acc sep rest [].
Proof.
  revert acc; induction line as [| c line IH]; intros acc Hall; simpl.
  - now rewrite Ascii.eqb_refl.
  - simpl in Hall. apply andb_true_iff in Hall as [Hc Hl].
    apply negb_true_iff in Hc. rewrite Hc. now rewrite IH.
Qed.

(** A line that is empty or begins with ["#"] contributes nothing to an
    import: the file with such a line in front is imported like the
    file without it. *)
Theorem skipped_line_is_ignored (line rest : string) :
  all_chars re_dot line = true ->
  line = "" \/ startswith "#" line = true ->
  load_csv_as_tracks (csv_reader (line ++ String "010"%char rest)%string) =
  load_csv_as_tracks (csv_reader rest).
Proof.
  intros Hnl Hskip. f_equal. unfold csv_reader, split.
  rewrite (split_acc_line "010"%char line rest [] Hnl). cbn [filter rev_string].
  replace (negb (startswith "#" line) && negb (line =? "")%string) with false;
    [reflexivity |].
  destruct Hskip as [-> | ->]; reflexivity.
Qed.

(** ** Fields that are not decoded *)

Lemma getitem_same_tail {A : Type} (pre pre' tl : list A) (i : Z) :
  List.length pre = List.length pre' ->
  Z.of_nat (List.length pre) <= i ->
  getitem (pre ++ tl) i = getitem (pre' ++ tl) i.
Proof.
  intros Hlen Hi. unfold getitem. rewrite !length_app, <- Hlen.
  destruct (Z.ltb_spec i 0); [lia |].
  destruct (_ || _); [reflexivity |].
  rewrite !nth_error_app2 by lia. now rewrite Hlen.
Qed.

Lemma confidence_scan_ext (row row' : list string) (idxs : list Z) :
  (forall i, In i idxs ->
     getitem row i = getitem row' i /\
     getitem row (i + 1) = getitem row' (i + 1)) ->
  confidence_scan row idxs = confidence_scan row' idxs.
Proof.
  induction idxs as [| i idxs IH]; intros Hall; simpl; [reflexivity |].
  destruct (Hall i (or_introl eq_refl)) as [<- <-].
  rewrite IH by (intros j Hj; apply Hall; now right).
  reflexivity.
Qed.

Lemma tag_scan_ext (row row' : list string) (js : list Z) (t : tags) :
  (forall j, In j js -> getitem row j = getitem row' j) ->
  tag_scan row js t = tag_scan row' js t.
Proof.
  revert t; induction js as [| j js IH]; intros t Hall; simpl; [reflexivity |].
  rewrite <- (Hall j (or_introl eq_refl)).
  destruct (getitem row j); simpl; [| reflexivity].
  apply IH. intros k Hk. apply Hall. now right.
Qed.

(** Fields 1 and 7 of a row with at least 10 fields are not decoded:
    changing them changes neither the result nor the exception of the
    decoder. *)
Theorem fields_1_and_7_not_decoded
    (f0 f1 f2 f3 f4 f5 f6 f7 f8 f9 f1' f7' : string) (rest : list string) :
  _parse_row_for_tracks
    (f0 :: f1 :: f2 :: f3 :: f4 :: f5 :: f6 :: f7 :: f8 :: f9 :: rest) =
  _parse_row_for_tracks
    (f0 :: f1' :: f2 :: f3 :: f4 :: f5 :: f6 :: f7' :: f8 :: f9 :: rest).
Proof.
  set (pre := [f0; f1; f2; f3; f4; f5; f6; f7]).
  set (pre' := [f0; f1'; f2; f3; f4; f5; f6; f7']).
  set (tl := f8 :: f9 :: rest).
  change (_parse_row_for_tracks (pre ++ tl) = _parse_row_for_tracks (pre' ++ tl)).
  assert (Hlen : List.length (pre ++ tl) = List.length (pre' ++ tl))
    by reflexivity.
  assert (Hlen10 : 10 <= Z.of_nat (List.length (pre ++ tl)))
    by (unfold pre, tl; simpl List.length; lia).
  assert (Hget : forall i, 8 <= i ->
            getitem (pre ++ tl) i = getitem (pre' ++ tl) i)
    by (intros i Hi; apply getitem_same_tail; [reflexivity | simpl; lia]).
  assert (Hparse : _parse_row (pre ++ tl) = _parse_row (pre' ++ tl)).
  { unfold _parse_row. rewrite <- Hlen.
    rewrite (confidence_scan_ext (pre ++ tl) (pre' ++ tl)).
    2:{ intros i Hi. apply py_range_odd in Hi as [Hi _].
        split; apply Hget; lia. }
    destruct (confidence_scan (pre' ++ tl) _); cbn [bind]; [| reflexivity].
    rewrite (tag_scan_ext (pre ++ tl) (pre' ++ tl)); [reflexivity |].
    intros j Hj. apply py_range_step1 in Hj. apply Hget.
    destruct (_ =? _); lia. }
  assert (Hinfo : row_info (pre ++ tl) = row_info (pre' ++ tl)).
  { unfold row_info.
    rewrite (getitem_nth (pre ++ tl) 0 f0), (getitem_nth (pre' ++ tl) 0 f0),
      (getitem_nth (pre ++ tl) 2 f2), (getitem_nth (pre' ++ tl) 2 f2),
      (getitem_nth (pre ++ tl) 8 f8), (getitem_nth (pre' ++ tl) 8 f8)
      by (lia || reflexivity).
    reflexivity. }
  unfold _parse_row_for_tracks. now rewrite Hparse, Hinfo.
Qed.

End MoreProperties.

(** ** The further properties at sample inputs *)

(** [confidence_pairs_positional] at a row with two pairs. *)
Lemma confidence_pairs_positional_witness :
  exists t,
    _parse_row Sample.pairs_row2 =
      Ok (t, [("fish", Ref.DFin false 95 (-2)); ("shark", Ref.DFin false 2 (-1))]) /\
    Forall (fun p =>
              exists i text,
                9 <= i < Z.of_nat (List.length Sample.pairs_row2) /\
                Z.odd i = true /\
                getitem Sample.pairs_row2 i = Ok (fst p) /\
                startswith "(" (fst p) = false /\
                getitem Sample.pairs_row2 (i + 1) = Ok text /\
                py_float text = Some (snd p))
           [("fish", Ref.DFin false 95 (-2)); ("shark", Ref.DFin false 2 (-1))].
Proof.
  eexists. split; [reflexivity |].
  eapply (confidence_pairs_positional Sample.pairs_row2). reflexivity.
Defined.

(** [decoded_feature_wf] at a row with a positive length. *)
Lemma decoded_feature_wf_witness :
  exists feature attrs tattrs cps,
    _parse_row_for_tracks Sample.fish_row = Ok (feature, attrs, tattrs, cps) /\
    (9 <= List.length Sample.fish_row)%nat /\
    List.length (bounds feature) = 4%nat /\
    attributes feature <> Some [] /\
    (attributes feature = None <-> attrs = []) /\
    (forall x, fishLength feature = Some x -> float_gt0 x = true).
Proof.
  do 4 eexists. split; [reflexivity |].
  eapply (decoded_feature_wf Sample.fish_row). reflexivity.
Defined.

(** [decode_only_ValueError] at an 11-field row with the score [abc]. *)
Lemma decode_only_ValueError_witness :
  _parse_row_for_tracks SampleMore.odd_bad_row = Err ValueError.
Proof.
  assert (H : exists e, _parse_row_for_tracks SampleMore.odd_bad_row = Err e)
    by (eexists; reflexivity).
  destruct H as [e He]. rewrite He. f_equal.
  apply (decode_only_ValueError SampleMore.odd_bad_row e);
    [simpl; lia | left; reflexivity | exact He].
Defined.

(** [tag_scan_window] at a 13-field row with an early tag, and at a
    10-field row. *)
Lemma tag_scan_window_witness :
  (exists t cps,
     _parse_row SampleMore.early_tag_row = Ok (t, cps) /\
     t = scan_field (scan_field no_tags "(atr) a true") "(atr) b 2" /\
     tag_attributes t =
       [("a", VBool true); ("b", VFloat (Ref.DFin false 2 0))]) /\
  (exists t cps,
     _parse_row Sample.trk_atr_row = Ok (t, cps) /\
     t = scan_field no_tags "(trk-atr) color red").
Proof.
  split.
  - do 2 eexists. split; [reflexivity |]. split; [| reflexivity].
    refine (proj1 (tag_scan_window
                     (firstn 11 SampleMore.early_tag_row)
                     "(atr) a true" "(atr) b 2" _ _) _ _); reflexivity.
  - do 2 eexists. split; [reflexivity |].
    refine (proj2 (tag_scan_window
                     (firstn 9 Sample.trk_atr_row)
                     "" "(trk-atr) color red" _ _) _ _); reflexivity.
Defined.

(** [aggregate_row_track_attribute_names] at rows without a track
    attribute, and with the track attribute [color]. *)
Lemma aggregate_row_track_attribute_names_witness :
  (exists tracks', aggregate_row [] Sample.fish_row = Ok tracks') /\
  aggregate_row [] Sample.trk_atr_row = Err ValueError.
Proof.
  split.
  - refine (proj1 (aggregate_row_track_attribute_names [] Sample.fish_row
                     _ _ [] _ _) _); [reflexivity | constructor].
  - refine (proj2 (aggregate_row_track_attribute_names [] Sample.trk_atr_row
                     _ _ [("color", VStr "red")] _ _) _);
      [reflexivity | left; simpl; lia].
Defined.

(** [import_fails_on_bad_row] at a good row followed by a bad one. *)
Lemma import_fails_on_bad_row_witness :
  exists e', load_csv_as_tracks [Sample.fish_row; Sample.even_row] = Err e'.
Proof.
  apply (import_fails_on_bad_row [Sample.fish_row; Sample.even_row]
           Sample.even_row IndexError);
    [right; left; reflexivity | reflexivity].
Defined.

(** [import_keys_are_track_ids] at three rows of two tracks. *)
Lemma import_keys_are_track_ids_witness :
  exists tracks,
    load_csv_as_tracks SampleMore.two_tracks = Ok tracks /\
    map fst tracks = [1; 2] /\
    NoDup (map fst tracks) /\
    Forall (fun kv => trackId (snd kv) = fst kv) tracks.
Proof.
  eexists. split; [reflexivity |]. split; [reflexivity |].
  apply (import_keys_are_track_ids SampleMore.two_tracks). reflexivity.
Defined.

(** [track_features_in_arrival_order] at track 1 of three rows. *)
Lemma track_features_in_arrival_order_witness :
  exists tracks track,
    load_csv_as_tracks SampleMore.two_tracks = Ok tracks /\
    dict_get 1 tracks = Some track /\
    rows_of 1 SampleMore.two_tracks =
      [SampleMore.track1_row0; SampleMore.track1_row1] /\
    mapM feature_of (rows_of 1 SampleMore.two_tracks) = Ok (features track).
Proof.
  do 2 eexists. split; [reflexivity |]. split; [reflexivity |].
  split; [reflexivity |].
  exact (track_features_in_arrival_order SampleMore.two_tracks _ 1 eq_refl).
Defined.

(** [import_one_feature_per_row] at three rows of two tracks. *)
Lemma import_one_feature_per_row_witness :
  exists tracks,
    load_csv_as_tracks SampleMore.two_tracks = Ok tracks /\
    list_sum (map (fun kv => List.length (features (snd kv))) tracks) = 3%nat.
Proof.
  eexists. split; [reflexivity |].
  apply (import_one_feature_per_row SampleMore.two_tracks). reflexivity.
Defined.

(** [write_track_all_or_nothing] at a track with a pair and at a track
    without. *)
Lemma write_track_all_or_nothing_witness :
  (exists rows,
     fst (write_track_to_csv Sample.fish_track []) = [] ++ rows /\
     List.length rows = 1%nat) /\
  fst (write_track_to_csv Sample.no_pairs_track []) = [].
Proof.
  split.
  - destruct (write_track_all_or_nothing Sample.fish_track [] _ _ eq_refl)
      as [(_ & rows & Hw & Hlen) | (Hr & _)]; [| discriminate Hr].
    exists rows. split; [exact Hw | exact Hlen].
  - destruct (write_track_all_or_nothing Sample.no_pairs_track [] _ _ eq_refl)
      as [(Hr & _) | (_ & Hw & _)]; [discriminate Hr | exact Hw].
Defined.

(** [export_rows_in_track_then_feature_order] at the import of three
    rows of two tracks. *)
Lemma export_rows_in_track_then_feature_order_witness :
  exists tracks rows rowss,
    load_csv_as_tracks SampleMore.two_tracks = Ok tracks /\
    export_rows tracks = Ok rows /\
    mapM (fun t => mapM (feature_columns t) (features t)) (map snd tracks)
      = Ok rowss /\
    rows = List.concat rowss /\
    map (@List.length (list pyval)) rowss = [2%nat; 1%nat].
Proof.
  eexists. eexists.
  assert (Hload : load_csv_as_tracks SampleMore.two_tracks
                  = Ok (match load_csv_as_tracks SampleMore.two_tracks with
                        | Ok tracks => tracks
                        | Err _ => []
                        end)) by reflexivity.
  assert (Hexp : export_rows (match load_csv_as_tracks SampleMore.two_tracks with
                              | Ok tracks => tracks
                              | Err _ => []
                              end)
                 = Ok (match export_rows
                               (match load_csv_as_tracks SampleMore.two_tracks with
                                | Ok tracks => tracks
                                | Err _ => []
                                end) with
                       | Ok rows => rows
                       | Err _ => []
                       end)) by reflexivity.
  destruct (export_rows_in_track_then_feature_order _ _ Hexp)
    as (rowss & Hm & Hrows & Hlens).
  exists rowss. split; [exact Hload |]. split; [exact Hexp |].
  split; [exact Hm |]. split; [exact Hrows |].
  assert (Hv : Ok rowss
               = mapM (fun t => mapM (feature_columns t) (features t))
                      (map snd (match load_csv_as_tracks SampleMore.two_tracks with
                                | Ok tracks => tracks
                                | Err _ => []
                                end))) by (symmetry; exact Hm).
  injection Hv as ->. reflexivity.
Defined.

(** [export_rows_result] at a track with a pair and at a track without. *)
Lemma export_rows_result_witness :
  (exists rows,
     export_rows [(1, Sample.fish_track)] = Ok rows /\
     List.length rows = 1%nat) /\
  export_rows [(1, Sample.fish_track); (2, Sample.no_pairs_track)]
    = Err IndexError.
Proof.
  split.
  - apply (proj1 (export_rows_result [(1, Sample.fish_track)])).
    constructor; [left; discriminate | constructor].
  - apply (proj2 (export_rows_result
                    [(1, Sample.fish_track); (2, Sample.no_pairs_track)])).
    right. left. split; [reflexivity | discriminate].
Defined.

(** [import_export_row_count] at three rows of two tracks. *)
Lemma import_export_row_count_witness :
  exists tracks rows,
    load_csv_as_tracks SampleMore.two_tracks = Ok tracks /\
    export_rows tracks = Ok rows /\
    List.length rows = 3%nat.
Proof.
  do 2 eexists. split; [reflexivity |]. split; [reflexivity |].
  eapply (import_export_row_count SampleMore.two_tracks); reflexivity.
Defined.

(** [encoded_row_decodes_in_bounds] at a feature with one pair. *)
Lemma encoded_row_decodes_in_bounds_witness :
  exists columns,
    feature_columns Sample.fish_track Sample.a_feature = Ok columns /\
    ((exists decoded, _parse_row_for_tracks (map py_str columns) = Ok decoded) \/
     _parse_row_for_tracks (map py_str columns) = Err ValueError).
Proof.
  eexists. split; [reflexivity |].
  apply (encoded_row_decodes_in_bounds Sample.fish_track Sample.a_feature);
    reflexivity.
Defined.

(** [attribute_field_split] at the name [fin color] and the value [red]. *)
Lemma attribute_field_split_witness :
  re_match re_atr "(atr) fin color red" = Some ["fin color"; "red"] /\
  re_match re_trk_atr "(trk-atr) fin color red" = Some ["fin color"; "red"].
Proof.
  refine (attribute_field_split "fin color" "red" _ _ _ _ _);
    reflexivity || discriminate.
Defined.



(** [keypoint_field_match] at [12 34] followed by text. *)
Lemma keypoint_field_match_witness :
  re_match re_kp_head "(kp) head 12 34xyz" = Some ["12"; "34"] /\
  re_match re_kp_tail "(kp) tail 12 34xyz" = Some ["12"; "34"].
Proof.
  refine (keypoint_field_match "12" "34" "xyz" _ _ _ _ _);
    reflexivity || discriminate.
Defined.


(** [tracks_asdict_injective] at two ways of writing one collection. *)
Lemma tracks_asdict_injective_witness :
  [(1, Sample.fish_track)] = [(1, mkTrack 0 0 1 [Sample.a_feature]
                                          [("fish", Ref.DFin false 9 (-1))] [])].
Proof.
  apply tracks_asdict_injective. reflexivity.
Defined.

(** [skipped_line_is_ignored] at a comment line. *)
Lemma skipped_line_is_ignored_witness :
  load_csv_as_tracks
    (csv_reader ("# a comment" ++ String "010"%char Sample.two_rows)%string) =
  load_csv_as_tracks (csv_reader Sample.two_rows).
Proof.
  apply (skipped_line_is_ignored "# a comment" Sample.two_rows);
    [reflexivity | right; reflexivity].
Defined.
